(** * A shallow embedding of the array-object framework of abTEM

    Sources: [abtem/core/array.py] (ArrayObject, stack, from_zarr),
    [abtem/transform.py] and [abtem/core/transform.py] (composite
    transforms) and [abtem/waves/scan.py] (sort_into_extents).

    An n-dimensional array is modelled row-major: a shape, the flat list of
    its elements and the flag telling whether it is a lazy (dask) array.
    Numeric element kernels (numpy's and dask's reductions and elementwise
    operators) belong to the array backend, passed around as an
    [ArrayModule], the way the code fetches it with [get_array_module]. *)

From Stdlib Require Import String List ZArith QArith Bool Lia.
Import ListNotations.
Open Scope nat_scope.

(** ** Python exceptions and the error monad *)

Inductive PyExc : Type :=
| RuntimeError (msg : string)
| AssertionError
| ValueError (msg : string)
| IndexError
| TypeError
| KeyError (key : string)
| AttributeError (name : string)
| NotImplementedError
| AxisError
| BackendError (msg : string).

Inductive result (A : Type) : Type :=
| Ok (a : A)
| Raise (e : PyExc).
Arguments Ok {A} a.
Arguments Raise {A} e.

Definition bind {A B : Type} (m : result A) (f : A -> result B) : result B :=
  match m with
  | Ok a => f a
  | Raise e => Raise e
  end.

Declare Scope py_scope.
Open Scope py_scope.
Notation "x <- m ;; k" := (bind m (fun x => k))
  (at level 60, m at next level, right associativity) : py_scope.

Definition of_option {A : Type} (e : PyExc) (o : option A) : result A :=
  match o with
  | Some a => Ok a
  | None => Raise e
  end.

Fixpoint mapM {A B : Type} (f : A -> result B) (l : list A) : result (list B) :=
  match l with
  | [] => Ok []
  | x :: r => y <- f x ;; ys <- mapM f r ;; Ok (y :: ys)
  end.

Fixpoint mapO {A B : Type} (f : A -> option B) (l : list A) : option (list B) :=
  match l with
  | [] => Some []
  | x :: r =>
      match f x, mapO f r with
      | Some y, Some ys => Some (y :: ys)
      | _, _ => None
      end
  end.

(** ** JSON values (constructor keyword arguments, metadata, zarr attributes) *)

Set Warnings "-register-all".

Inductive Json : Type :=
| JNull
| JBool (b : bool)
| JNum (q : Q)
| JStr (s : string)
| JList (l : list Json)
| JObj (kv : list (string * Json)).

(** Python's [!=] on such values, negated: numbers compare by value. *)
Fixpoint json_eqb (a b : Json) {struct a} : bool :=
  match a, b with
  | JNull, JNull => true
  | JBool x, JBool y => Bool.eqb x y
  | JNum x, JNum y => Qeq_bool x y
  | JStr x, JStr y => String.eqb x y
  | JList xs, JList ys =>
      (fix go (xs ys : list Json) : bool :=
         match xs, ys with
         | [], [] => true
         | x :: xs', y :: ys' => json_eqb x y && go xs' ys'
         | _, _ => false
         end) xs ys
  | JObj xs, JObj ys =>
      (fix go (xs ys : list (string * Json)) : bool :=
         match xs, ys with
         | [], [] => true
         | (k, x) :: xs', (k', y) :: ys' =>
             String.eqb k k' && json_eqb x y && go xs' ys'
         | _, _ => false
         end) xs ys
  | _, _ => false
  end.

Fixpoint json_list_eqb (xs ys : list Json) : bool :=
  match xs, ys with
  | [], [] => true
  | x :: xs', y :: ys' => json_eqb x y && json_list_eqb xs' ys'
  | _, _ => false
  end.

(** Python dict update [{**d, k: v}]: an existing key keeps its place. *)
Fixpoint dict_set (d : list (string * Json)) (k : string) (v : Json)
  : list (string * Json) :=
  match d with
  | [] => [(k, v)]
  | (k', v') :: r =>
      if String.eqb k k' then (k', v) :: r else (k', v') :: dict_set r k v
  end.

(** [{**d, **e}] *)
Definition dict_merge (d e : list (string * Json)) : list (string * Json) :=
  fold_left (fun acc kv => dict_set acc (fst kv) (snd kv)) e d.

Fixpoint dict_get (d : list (string * Json)) (k : string) : option Json :=
  match d with
  | [] => None
  | (k', v) :: r => if String.eqb k k' then Some v else dict_get r k
  end.

(** ** Axis metadata ([abtem.core.axes], the variants of the data model) *)

Inductive AxisMetadata : Type :=
| UnknownAxis
| OrdinalAxis (label : string) (values : list Json)
| ParameterAxis (label : string) (values : list Json) (ensemble_mean : bool)
| ScanAxis (label : string) (sampling offset : Q) (units : string) (endpoint : bool)
| PositionsAxis (values : list Json).

Definition axis_eqb (a b : AxisMetadata) : bool :=
  match a, b with
  | UnknownAxis, UnknownAxis => true
  | OrdinalAxis l v, OrdinalAxis l' v' => String.eqb l l' && json_list_eqb v v'
  | ParameterAxis l v m, ParameterAxis l' v' m' =>
      String.eqb l l' && json_list_eqb v v' && Bool.eqb m m'
  | ScanAxis l s o u e, ScanAxis l' s' o' u' e' =>
      String.eqb l l' && Qeq_bool s s' && Qeq_bool o o' && String.eqb u u'
      && Bool.eqb e e'
  | PositionsAxis v, PositionsAxis v' => json_list_eqb v v'
  | _, _ => false
  end.

Fixpoint axes_eqb (xs ys : list AxisMetadata) : bool :=
  match xs, ys with
  | [], [] => true
  | x :: xs', y :: ys' => axis_eqb x y && axes_eqb xs' ys'
  | _, _ => false
  end.

(** ** n-dimensional arrays and the array backend *)

Record ndarray (V : Type) : Type := mk_ndarray {
  nd_shape : list nat;
  nd_data : list V;
  nd_lazy : bool
}.
Arguments mk_ndarray {V} nd_shape nd_data nd_lazy.
Arguments nd_shape {V} _.
Arguments nd_data {V} _.
Arguments nd_lazy {V} _.

(** The element kernels of numpy / dask: a reduction by name ("mean",
    "sum", "std", "min", "max"; [None] where numpy raises, e.g. the minimum
    of an empty array) and an elementwise binary operator by dunder name. *)
Record ArrayModule (V : Type) : Type := {
  xp_reduce : string -> list V -> option V;
  xp_binop : string -> V -> V -> V
}.
Arguments xp_reduce {V}.
Arguments xp_binop {V}.

Definition prod (l : list nat) : nat := fold_right Nat.mul 1 l.

(** Every multi-index of a shape, in row-major order. *)
Fixpoint all_indices (shape : list nat) : list (list nat) :=
  match shape with
  | [] => [[]]
  | n :: s => flat_map (fun i => map (cons i) (all_indices s)) (seq 0 n)
  end.

Fixpoint flat_index (shape idx : list nat) : nat :=
  match shape, idx with
  | _ :: s, i :: js => i * prod s + flat_index s js
  | _, _ => 0
  end.

Definition nd_get {V} (a : ndarray V) (idx : list nat) : option V :=
  nth_error (nd_data a) (flat_index (nd_shape a) idx).

(** numpy's axis normalisation ([normalize_axis_index]) and the duplicate
    check of reductions. *)
Definition normalize_axis (ndim : nat) (a : Z) : result nat :=
  let a' := if (a <? 0)%Z then (a + Z.of_nat ndim)%Z else a in
  if (0 <=? a')%Z && (a' <? Z.of_nat ndim)%Z then Ok (Z.to_nat a')
  else Raise AxisError.

Fixpoint has_dup (l : list nat) : bool :=
  match l with
  | [] => false
  | x :: r => existsb (Nat.eqb x) r || has_dup r
  end.

Definition validate_axes (ndim : nat) (axes : list Z) : result (list nat) :=
  ns <- mapM (normalize_axis ndim) axes ;;
  if has_dup ns then Raise (ValueError "duplicate value in 'axis'") else Ok ns.

(** Interleave an index over the kept axes with one over the reduced axes. *)
Fixpoint merge_index (p n : nat) (axes kept red : list nat) : list nat :=
  match n with
  | 0 => []
  | S n' =>
      if existsb (Nat.eqb p) axes then
        match red with
        | i :: red' => i :: merge_index (S p) n' axes kept red'
        | [] => []
        end
      else
        match kept with
        | i :: kept' => i :: merge_index (S p) n' axes kept' red
        | [] => []
        end
  end.

(** [xp.<fn>(a, axes, keepdims=keepdims)] (and [da.<fn>] for lazy arrays). *)
Definition np_reduce {V} (xp : ArrayModule V) (fn : string) (a : ndarray V)
    (axes : list Z) (keepdims : bool) : result (ndarray V) :=
  let s := nd_shape a in
  let nd := length s in
  ax <- validate_axes nd axes ;;
  let inax i := existsb (Nat.eqb i) ax in
  let dims := combine (seq 0 nd) s in
  let kept_shape := map snd (filter (fun p => negb (inax (fst p))) dims) in
  let red_shape := map snd (filter (fun p => inax (fst p)) dims) in
  vals <- mapM (fun r =>
            xs <- of_option IndexError
                    (mapO (fun q => nd_get a (merge_index 0 nd ax r q))
                          (all_indices red_shape)) ;;
            of_option (ValueError "zero-size array to reduction operation")
                      (xp_reduce xp fn xs))
          (all_indices kept_shape) ;;
  let out_shape :=
    if keepdims then map (fun p => if inax (fst p) then 1 else snd p) dims
    else kept_shape in
  Ok (mk_ndarray out_shape vals (nd_lazy a)).

(** ** Array objects *)

(** A concrete subclass of [ArrayObject]: its name and its [_base_dims]. *)
Record ArrayClass : Type := mk_class {
  cls_name : string;
  base_dims : nat
}.

Definition class_eqb (c d : ArrayClass) : bool :=
  String.eqb (cls_name c) (cls_name d) && Nat.eqb (base_dims c) (base_dims d).

(** The state of an array object: its class, its array, its ensemble axes
    metadata, its free-form metadata and the remaining constructor keyword
    arguments (what [_copy_kwargs] returns besides those). *)
Record ArrayObject (V : Type) : Type := mk_obj {
  ao_cls : ArrayClass;
  ao_array : ndarray V;
  ao_ensemble_axes_metadata : list AxisMetadata;
  ao_metadata : list (string * Json);
  ao_kwargs : list (string * Json)
}.
Arguments mk_obj {V} ao_cls ao_array ao_ensemble_axes_metadata ao_metadata ao_kwargs.
Arguments ao_cls {V} _.
Arguments ao_array {V} _.
Arguments ao_ensemble_axes_metadata {V} _.
Arguments ao_metadata {V} _.
Arguments ao_kwargs {V} _.

Section ArrayObjectProps.
Context {V : Type}.

Definition shape (x : ArrayObject V) : list nat := nd_shape (ao_array x).

Definition is_lazy (x : ArrayObject V) : bool := nd_lazy (ao_array x).

(** [self.shape[-self._base_dims:]], with Python's slice on [-0]. *)
Definition base_shape (x : ArrayObject V) : list nat :=
  let bd := base_dims (ao_cls x) in
  let s := shape x in
  if Nat.eqb bd 0 then s else skipn (length s - bd) s.

(** [self.shape[:-self._base_dims]] *)
Definition ensemble_shape (x : ArrayObject V) : list nat :=
  let bd := base_dims (ao_cls x) in
  let s := shape x in
  if Nat.eqb bd 0 then [] else firstn (length s - bd) s.

(** [self.__class__( **kwargs)] after [kwargs = self._copy_kwargs(...)] and
    the given fields overridden. *)
Definition with_array (x : ArrayObject V) (a : ndarray V) : ArrayObject V :=
  mk_obj (ao_cls x) a (ao_ensemble_axes_metadata x) (ao_metadata x) (ao_kwargs x).

Definition with_array_axes (x : ArrayObject V) (a : ndarray V)
    (eam : list AxisMetadata) : ArrayObject V :=
  mk_obj (ao_cls x) a eam (ao_metadata x) (ao_kwargs x).

(** [len(self)] is [len(self.array)], the length of the first dimension. *)
Definition py_len (a : ndarray V) : result nat :=
  match nd_shape a with
  | [] => Raise TypeError
  | n :: _ => Ok n
  end.

(** [ArrayObject._is_base_axis] *)
Definition _is_base_axis (x : ArrayObject V) (axes : list Z) : bool :=
  let base_axes := seq 0 (length (base_shape x)) in
  existsb (fun a => existsb (fun b => Z.eqb a (Z.of_nat b)) base_axes) axes.

End ArrayObjectProps.

(** What a reduction returns: a bare scalar, a lazy 0-d array, or a new
    array object. *)
Inductive Reduced (V : Type) : Type :=
| RScalar (v : V)
| RLazyScalar (a : ndarray V)
| RObject (x : ArrayObject V).
Arguments RScalar {V} v.
Arguments RLazyScalar {V} a.
Arguments RObject {V} x.

(** [ArrayObject._reduction]; [axes = None] is [None], an int [a] is
    [Some [a]]. *)
Definition _reduction {V} (xp : ArrayModule V) (x : ArrayObject V)
    (reduction_func : string) (axes : option (list Z)) (keepdims : bool)
  : result (Reduced V) :=
  match axes with
  | None =>
      v <- of_option (ValueError "zero-size array to reduction operation")
             (xp_reduce xp reduction_func (nd_data (ao_array x))) ;;
      if is_lazy x then Ok (RLazyScalar (mk_ndarray [] [v] true))
      else Ok (RScalar v)
  | Some axes =>
      axes <- mapM (fun a => if (0 <=? a)%Z then Ok a
                             else (n <- py_len (ao_array x) ;; Ok (Z.of_nat n + a)%Z))
                   axes ;;
      if _is_base_axis x axes then Raise (RuntimeError "base axes cannot be reduced")
      else
        let eam0 := ao_ensemble_axes_metadata x in
        let eam :=
          if keepdims then eam0
          else map fst (filter (fun p => negb (existsb (Z.eqb (Z.of_nat (snd p))) axes))
                               (combine eam0 (seq 0 (length (ensemble_shape x))))) in
        arr <- np_reduce xp reduction_func (ao_array x) axes keepdims ;;
        Ok (RObject (with_array_axes x arr eam))
  end.

Definition mean {V} xp (x : ArrayObject V) axis keepdims := _reduction xp x "mean" axis keepdims.
Definition sum {V} xp (x : ArrayObject V) axis keepdims := _reduction xp x "sum" axis keepdims.
Definition std {V} xp (x : ArrayObject V) axis keepdims := _reduction xp x "std" axis keepdims.
Definition min {V} xp (x : ArrayObject V) axis keepdims := _reduction xp x "min" axis keepdims.
Definition max {V} xp (x : ArrayObject V) axis keepdims := _reduction xp x "max" axis keepdims.

(** ** Elementwise arithmetic *)

Definition nat_list_eqb (a b : list nat) : bool :=
  (length a =? length b) && forallb (fun p => Nat.eqb (fst p) (snd p)) (combine a b).

(** The dunder methods that numpy implements in place. *)
Definition is_inplace_op (func : string) : bool :=
  existsb (String.eqb func) ["__iadd__"; "__isub__"; "__imul__"; "__itruediv__"]%string.

(** numpy broadcasting of two shapes, on the reversed shapes. *)
Fixpoint broadcast_rev (a b : list nat) : option (list nat) :=
  match a, b with
  | [], _ => Some b
  | _, [] => Some a
  | x :: a', y :: b' =>
      match broadcast_rev a' b' with
      | None => None
      | Some r =>
          if Nat.eqb x y then Some (x :: r)
          else if Nat.eqb x 1 then Some (y :: r)
          else if Nat.eqb y 1 then Some (x :: r)
          else None
      end
  end.

(** The index of an operand of shape [s] read at index [idx] of the
    broadcast result. *)
Definition project_index (s idx : list nat) : list nat :=
  map (fun p => if Nat.eqb (fst p) 1 then 0 else snd p)
      (combine s (skipn (length idx - length s) idx)).

(** [getattr(a, func)(b)] on the backing arrays: arrays of equal shapes are
    combined element by element, other shapes are broadcast, a scalar is
    applied to every element.  dask arrays have no in-place operator
    methods, and numpy refuses a dask operand for an in-place output. *)
Definition nd_binop {V} (xp : ArrayModule V) (func : string) (a : ndarray V)
    (b : ndarray V + V) : result (ndarray V) :=
  if is_inplace_op func && nd_lazy a then Raise (AttributeError func)
  else
    match b with
    | inr v =>
        Ok (mk_ndarray (nd_shape a) (map (fun u => xp_binop xp func u v) (nd_data a))
                       (nd_lazy a))
    | inl b =>
        if is_inplace_op func && nd_lazy b then
          Raise (BackendError "the out parameter is not supported for dask arrays")
        else if nat_list_eqb (nd_shape a) (nd_shape b) then
          Ok (mk_ndarray (nd_shape a) (map (fun p => xp_binop xp func (fst p) (snd p))
                                           (combine (nd_data a) (nd_data b)))
                         (nd_lazy a || nd_lazy b))
        else
          match broadcast_rev (rev (nd_shape a)) (rev (nd_shape b)) with
          | None => Raise (ValueError "operands could not be broadcast together")
          | Some r =>
              let out := rev r in
              vals <- of_option IndexError
                        (mapO (fun idx =>
                                 match nd_get a (project_index (nd_shape a) idx),
                                       nd_get b (project_index (nd_shape b) idx) with
                                 | Some u, Some w => Some (xp_binop xp func u w)
                                 | _, _ => None
                                 end) (all_indices out)) ;;
              Ok (mk_ndarray out vals (nd_lazy a || nd_lazy b))
          end
    end.

(** The right operand of an arithmetic operator. *)
Inductive Operand (V : Type) : Type :=
| OpObject (y : ArrayObject V)
| OpArray (a : ndarray V)
| OpScalar (v : V).
Arguments OpObject {V} y.
Arguments OpArray {V} a.
Arguments OpScalar {V} v.

(** A value of [_copy_kwargs()]. *)
Inductive KwVal : Type :=
| KwAxes (l : list AxisMetadata)
| KwJson (j : Json).

Definition kwval_eqb (a b : KwVal) : bool :=
  match a, b with
  | KwAxes l, KwAxes l' => axes_eqb l l'
  | KwJson j, KwJson j' => json_eqb j j'
  | _, _ => false
  end.

(** [self._copy_kwargs(exclude=("array", "metadata")).values()] *)
Definition compat_kwargs {V} (x : ArrayObject V) : list KwVal :=
  KwAxes (ao_ensemble_axes_metadata x) :: map (fun kv => KwJson (snd kv)) (ao_kwargs x).

(** [ArrayObject._check_is_compatible] *)
Definition _check_is_compatible {V} (x other : ArrayObject V) : result unit :=
  if negb (class_eqb (ao_cls other) (ao_cls x)) then
    Raise (RuntimeError "incompatible types")
  else if negb (nat_list_eqb (shape x) (shape other)) then
    Raise (RuntimeError "incompatible shapes")
  else if existsb (fun p => negb (kwval_eqb (fst p) (snd p)))
                  (combine (compat_kwargs x) (compat_kwargs other)) then
    Raise (RuntimeError "incompatible values")
  else Ok tt.

(** [ArrayObject._arithmetic] *)
Definition _arithmetic {V} (xp : ArrayModule V) (x : ArrayObject V)
    (other : Operand V) (func : string) : result (ArrayObject V) :=
  b <- match other with
       | OpObject y => _ <- _check_is_compatible x y ;; Ok (inl (ao_array y))
       | OpArray a => Ok (inl a)
       | OpScalar v => Ok (inr v)
       end ;;
  arr <- nd_binop xp func (ao_array x) b ;;
  Ok (with_array x arr).

Definition inplace_lazy_msg : string :=
  "inplace arithmetic operation not implemented for lazy measurement".

(** [ArrayObject._in_place_arithmetic]: [hasattr(other, "is_lazy")] holds
    for array objects only. *)
Definition _in_place_arithmetic {V} (xp : ArrayModule V) (x : ArrayObject V)
    (other : Operand V) (func : string) : result (ArrayObject V) :=
  let other_lazy := match other with OpObject y => is_lazy y | _ => false end in
  if is_lazy x || other_lazy then Raise (RuntimeError inplace_lazy_msg)
  else _arithmetic xp x other func.

Definition __mul__ {V} xp (x : ArrayObject V) other := _arithmetic xp x other "__mul__".
Definition __imul__ {V} xp (x : ArrayObject V) other := _in_place_arithmetic xp x other "__imul__".
Definition __truediv__ {V} xp (x : ArrayObject V) other := _arithmetic xp x other "__truediv__".
Definition __itruediv__ {V} xp (x : ArrayObject V) other := _arithmetic xp x other "__itruediv__".
Definition __sub__ {V} xp (x : ArrayObject V) other := _arithmetic xp x other "__sub__".
Definition __isub__ {V} xp (x : ArrayObject V) other := _in_place_arithmetic xp x other "__isub__".
Definition __add__ {V} xp (x : ArrayObject V) other := _arithmetic xp x other "__add__".
Definition __iadd__ {V} xp (x : ArrayObject V) other := _in_place_arithmetic xp x other "__iadd__".
Definition __pow__ {V} xp (x : ArrayObject V) other := _arithmetic xp x other "__pow__".

(** ** Indexing *)

(** An index item: an integer, [slice(start, stop, step)], [None] or [...]. *)
Inductive Item : Type :=
| IInt (i : Z)
| ISlice (start stop step : option Z)
| INone
| IEllipsis.

(** The [items] argument of [get_items]: one item, a tuple, or anything
    else (a list, an array). *)
Inductive ItemsArg : Type :=
| ISingle (it : Item)
| ITuple (its : list Item)
| IOther.

(** [range( *slice(start, stop, step).indices(n))] *)
Definition slice_range (start stop step : option Z) (n : nat) : result (list nat) :=
  let st := match step with Some s => s | None => 1%Z end in
  let nz := Z.of_nat n in
  if (st =? 0)%Z then Raise (ValueError "slice step cannot be zero")
  else if (0 <? st)%Z then
    let clamp v := if (v <? 0)%Z then Z.max 0 (v + nz) else Z.min v nz in
    let lo := match start with Some s => clamp s | None => 0%Z end in
    let hi := match stop with Some s => clamp s | None => nz end in
    let cnt := if (lo <? hi)%Z then ((hi - lo + st - 1) / st)%Z else 0%Z in
    Ok (map (fun k => Z.to_nat (lo + Z.of_nat k * st)) (seq 0 (Z.to_nat cnt)))
  else
    let clamp v := if (v <? 0)%Z then Z.max (-1) (v + nz) else Z.min v (nz - 1) in
    let lo := match start with Some s => clamp s | None => (nz - 1)%Z end in
    let hi := match stop with Some s => clamp s | None => (-1)%Z end in
    let cnt := if (hi <? lo)%Z then ((lo - hi - st - 1) / (- st))%Z else 0%Z in
    Ok (map (fun k => Z.to_nat (lo + Z.of_nat k * st)) (seq 0 (Z.to_nat cnt))).

(** [seq[slice]] on a Python sequence. *)
Definition slice_list {A} (start stop step : option Z) (l : list A) : result (list A) :=
  ks <- slice_range start stop step (length l) ;;
  of_option IndexError (mapO (nth_error l) ks).

(** How numpy's basic indexing treats each output / source axis. *)
Inductive Sel : Type :=
| SNew
| SFix (k : nat)
| SRange (ks : list nat).

Fixpoint index_plan (items : list Item) (shp : list nat) : result (list Sel) :=
  match items with
  | [] => Ok (map (fun n => SRange (seq 0 n)) shp)
  | INone :: r => p <- index_plan r shp ;; Ok (SNew :: p)
  | IInt i :: r =>
      match shp with
      | [] => Raise IndexError
      | n :: s =>
          let i' := if (i <? 0)%Z then (i + Z.of_nat n)%Z else i in
          if (0 <=? i')%Z && (i' <? Z.of_nat n)%Z then
            p <- index_plan r s ;; Ok (SFix (Z.to_nat i') :: p)
          else Raise IndexError
      end
  | ISlice a b c :: r =>
      match shp with
      | [] => Raise IndexError
      | n :: s => ks <- slice_range a b c n ;; p <- index_plan r s ;; Ok (SRange ks :: p)
      end
  | IEllipsis :: _ => Raise NotImplementedError
  end.

Fixpoint plan_shape (p : list Sel) : list nat :=
  match p with
  | [] => []
  | SNew :: p' => 1 :: plan_shape p'
  | SFix _ :: p' => plan_shape p'
  | SRange ks :: p' => length ks :: plan_shape p'
  end.

Fixpoint plan_source (p : list Sel) (out : list nat) : list nat :=
  match p with
  | [] => []
  | SNew :: p' => plan_source p' (tl out)
  | SFix k :: p' => k :: plan_source p' out
  | SRange ks :: p' => nth (hd 0 out) ks 0 :: plan_source p' (tl out)
  end.

(** [array[items]] for numpy and dask arrays. *)
Definition np_getitem {V} (a : ndarray V) (items : list Item) : result (ndarray V) :=
  p <- index_plan items (nd_shape a) ;;
  let out := plan_shape p in
  vals <- of_option IndexError (mapO (fun r => nd_get a (plan_source p r)) (all_indices out)) ;;
  Ok (mk_ndarray out vals (nd_lazy a)).

(** Modelled from the spec: [AxisMetadata.__getitem__] (abtem.core.axes, not
    in the sources): "slice/array indices re-slice the corresponding
    OrdinalAxis"; any other axis is returned as it is. *)
Definition axis_getitem (ax : AxisMetadata) (item : Item) : result AxisMetadata :=
  match ax, item with
  | OrdinalAxis l vs, ISlice a b c => vs' <- slice_list a b c vs ;; Ok (OrdinalAxis l vs')
  | _, _ => Ok ax
  end.

(** Modelled from the spec: [AxisMetadata.item_metadata(i)] (abtem.core.axes,
    not in the sources), the "item metadata" extraction by which an integer
    index "folds its selected value into metadata": an OrdinalAxis gives
    [{label: values[i]}], any other axis nothing. *)
Definition item_metadata (ax : AxisMetadata) (i : nat) : result (list (string * Json)) :=
  match ax with
  | OrdinalAxis l vs => v <- of_option IndexError (nth_error vs i) ;; Ok [(l, v)]
  | _ => Ok []
  end.

(** Python's [list.insert(i, x)] for [i >= 0]. *)
Fixpoint list_insert {A} (i : nat) (x : A) (l : list A) : list A :=
  match i, l with
  | 0, _ => x :: l
  | S _, [] => [x]
  | S i', y :: l' => y :: list_insert i' x l'
  end.

Definition is_none (it : Item) : bool := match it with INone => true | _ => false end.
Definition is_ellipsis (it : Item) : bool := match it with IEllipsis => true | _ => false end.

(** The second loop of [get_items]: metadata folded from integer items and
    the axes metadata kept for the other items. *)
Fixpoint fold_items (expanded : list AxisMetadata) (i : nat) (items : list Item)
    (metadata : list (string * Json)) (axes_metadata : list AxisMetadata)
  : result (list (string * Json) * list AxisMetadata) :=
  match items with
  | [] => Ok (metadata, axes_metadata)
  | IInt _ :: r =>
      ax <- of_option IndexError (nth_error expanded i) ;;
      md <- item_metadata ax 0 ;;
      fold_items expanded (S i) r (dict_merge metadata md) axes_metadata
  | it :: r =>
      ax <- of_option IndexError (nth_error expanded i) ;;
      ax' <- axis_getitem ax it ;;
      fold_items expanded (S i) r metadata (axes_metadata ++ [ax'])
  end.

(** [ArrayObject.get_items] *)
Definition get_items {V} (x : ArrayObject V) (items : ItemsArg) (keepdims : bool)
  : result (ArrayObject V) :=
  its <- match items with
         | ISingle IEllipsis => Raise NotImplementedError
         | ISingle it => Ok [it]
         | ITuple l => Ok l
         | IOther => Raise NotImplementedError
         end ;;
  let its := if keepdims then
               map (fun it => match it with
                              | IInt i => ISlice (Some i) (Some (i + 1)%Z) None
                              | _ => it
                              end) its
             else its in
  if existsb is_ellipsis its then Raise NotImplementedError
  else if length (filter (fun it => negb (is_none it)) its) <? length (ensemble_shape x) + 1
  then
    let expanded :=
      fold_left (fun acc p => if is_none (snd p) then list_insert (fst p) UnknownAxis acc else acc)
                (combine (seq 0 (length its)) its) (ao_ensemble_axes_metadata x) in
    r <- fold_items expanded 0 its [] [] ;;
    let (metadata, axes_metadata) := r in
    let axes_metadata := axes_metadata ++ skipn (length its) expanded in
    arr <- np_getitem (ao_array x) its ;;
    Ok (mk_obj (ao_cls x) arr axes_metadata (dict_merge (ao_metadata x) metadata) (ao_kwargs x))
  else Raise (RuntimeError "base axes cannot be indexed").

(** ** Stacking *)

(** [np.stack(arrays, axis)] / [da.stack] for a non-negative axis. *)
Definition np_stack {V} (arrays : list (ndarray V)) (axis : nat) (lazy : bool)
  : result (ndarray V) :=
  match arrays with
  | [] => Raise (ValueError "need at least one array to stack")
  | a0 :: _ =>
      if negb (forallb (fun a => nat_list_eqb (nd_shape a) (nd_shape a0)) arrays) then
        Raise (ValueError "all input arrays must have the same shape")
      else if length (nd_shape a0) <? axis then Raise AxisError
      else
        let out := list_insert axis (length arrays) (nd_shape a0) in
        vals <- of_option IndexError
                  (mapO (fun idx =>
                           match nth_error arrays (nth axis idx 0) with
                           | Some a => nd_get a (firstn axis idx ++ skipn (S axis) idx)
                           | None => None
                           end) (all_indices out)) ;;
        Ok (mk_ndarray out vals lazy)
  end.

(** [ArrayObject._stack] *)
Definition _stack {V} (arrays : list (ArrayObject V)) (axis_metadata : AxisMetadata)
    (axis : nat) : result (ArrayObject V) :=
  a0 <- of_option IndexError (hd_error arrays) ;;
  arr <- np_stack (map ao_array arrays) axis (is_lazy a0) ;;
  let eam := list_insert axis axis_metadata (ao_ensemble_axes_metadata a0) in
  Ok (mk_obj (ao_cls a0) arr eam (ao_metadata a0) (ao_kwargs a0)).

(** The [axis_metadata] argument of [stack]. *)
Inductive StackAxisMetadata : Type :=
| SANone
| SAStrings (l : list Json)
| SAAxis (a : AxisMetadata).

Definition is_jstr (j : Json) : bool := match j with JStr _ => true | _ => false end.

(** [stack] *)
Definition stack {V} (arrays : list (ArrayObject V)) (axis_metadata : StackAxisMetadata)
    (axis : Z) : result (ArrayObject V) :=
  a0 <- of_option IndexError (hd_error arrays) ;;
  if negb (axis <=? Z.of_nat (length (ensemble_shape a0)))%Z then Raise AssertionError
  else if negb (0 <=? axis)%Z then Raise AssertionError
  else
    am <- match axis_metadata with
          | SANone => Ok UnknownAxis
          | SAStrings l => if forallb is_jstr l then Ok (OrdinalAxis "" l)
                           else Raise (ValueError "")
          | SAAxis a => Ok a
          end ;;
    _stack arrays am (Z.to_nat axis).

(** ** Persistence: [to_zarr] and [from_zarr] *)

(** Modelled from the spec: [axis_to_dict] (abtem.core.axes, not in the
    sources).  "axis metadata JSON-encoded": a JSON object naming the
    variant under "type" and holding its fields. *)
Definition axis_to_dict (a : AxisMetadata) : Json :=
  match a with
  | UnknownAxis => JObj [("type", JStr "UnknownAxis")]
  | OrdinalAxis l vs =>
      JObj [("type", JStr "OrdinalAxis"); ("label", JStr l); ("values", JList vs)]
  | ParameterAxis l vs m =>
      JObj [("type", JStr "ParameterAxis"); ("label", JStr l); ("values", JList vs);
            ("_ensemble_mean", JBool m)]
  | ScanAxis l s o u e =>
      JObj [("type", JStr "ScanAxis"); ("label", JStr l); ("sampling", JNum s);
            ("offset", JNum o); ("units", JStr u); ("endpoint", JBool e)]
  | PositionsAxis vs => JObj [("type", JStr "PositionsAxis"); ("values", JList vs)]
  end%string.

Definition get_str (kv : list (string * Json)) (k : string) : result string :=
  match dict_get kv k with Some (JStr s) => Ok s | _ => Raise (KeyError k) end.
Definition get_list (kv : list (string * Json)) (k : string) : result (list Json) :=
  match dict_get kv k with Some (JList l) => Ok l | _ => Raise (KeyError k) end.
Definition get_num (kv : list (string * Json)) (k : string) : result Q :=
  match dict_get kv k with Some (JNum q) => Ok q | _ => Raise (KeyError k) end.
Definition get_bool (kv : list (string * Json)) (k : string) : result bool :=
  match dict_get kv k with Some (JBool b) => Ok b | _ => Raise (KeyError k) end.

(** Modelled from the spec: [axis_from_dict] (abtem.core.axes, not in the
    sources), the decoder of [axis_to_dict]'s encoding. *)
Definition axis_from_dict (d : Json) : result AxisMetadata :=
  match d with
  | JObj kv =>
      t <- get_str kv "type" ;;
      if String.eqb t "UnknownAxis" then Ok UnknownAxis
      else if String.eqb t "OrdinalAxis" then
        l <- get_str kv "label" ;; vs <- get_list kv "values" ;; Ok (OrdinalAxis l vs)
      else if String.eqb t "ParameterAxis" then
        l <- get_str kv "label" ;; vs <- get_list kv "values" ;;
        m <- get_bool kv "_ensemble_mean" ;; Ok (ParameterAxis l vs m)
      else if String.eqb t "ScanAxis" then
        l <- get_str kv "label" ;; s <- get_num kv "sampling" ;; o <- get_num kv "offset" ;;
        u <- get_str kv "units" ;; e <- get_bool kv "endpoint" ;; Ok (ScanAxis l s o u e)
      else if String.eqb t "PositionsAxis" then
        vs <- get_list kv "values" ;; Ok (PositionsAxis vs)
      else Raise (KeyError t)
  | _ => Raise TypeError
  end%string.

(** A zarr group: its array components and its JSON attributes. *)
Record ZarrStore (V : Type) : Type := mk_store {
  z_arrays : list (string * (list nat * list V));
  z_attrs : list (string * Json)
}.
Arguments mk_store {V} z_arrays z_attrs.
Arguments z_arrays {V} _.
Arguments z_attrs {V} _.

Fixpoint digits (fuel n : nat) (acc : string) : string :=
  match fuel with
  | 0 => acc
  | S f =>
      let acc' := String (Ascii.ascii_of_nat (48 + n mod 10)) acc in
      if n <? 10 then acc' else digits f (n / 10) acc'
  end.

(** [str(i)] *)
Definition str_of_nat (n : nat) : string := digits (S n) n "".

(** [ensure_lazy] (the chunking is not modelled) and [copy_to_device("cpu")]. *)
Definition ensure_lazy {V} (x : ArrayObject V) : ArrayObject V :=
  if is_lazy x then x
  else with_array x (mk_ndarray (shape x) (nd_data (ao_array x)) true).

(** [has_array._pack_kwargs(has_array._copy_kwargs(exclude=("array",)))]:
    the constructor keyword arguments are the ensemble axes metadata, the
    metadata and the remaining keyword arguments. *)
Definition _pack_kwargs {V} (x : ArrayObject V) : Json :=
  JObj (app [("ensemble_axes_metadata"%string,
              JList (map axis_to_dict (ao_ensemble_axes_metadata x)));
             ("metadata"%string, JObj (ao_metadata x))] (ao_kwargs x)).

(** [ComputableList.to_zarr] with [compute=True]: the group is opened with
    mode "w", so it starts empty. *)
Definition to_zarr_list {V} (xs : list (ArrayObject V)) : ZarrStore V :=
  fold_left
    (fun st p =>
       let i := str_of_nat (fst p) in
       let x := ensure_lazy (snd p) in
       mk_store (app (z_arrays st) [("array" ++ i, (shape x, nd_data (ao_array x)))])
                (dict_set (dict_set (z_attrs st) ("kwargs" ++ i) (_pack_kwargs x))
                          ("type" ++ i) (JStr (cls_name (ao_cls x)))))%string
    (combine (seq 0 (length xs)) xs) (mk_store [] []).

(** [ArrayObject.to_zarr] *)
Definition to_zarr {V} (x : ArrayObject V) : ZarrStore V := to_zarr_list [x].

(** The [while True] loop of [from_zarr] reading [type0], [type1], ... up
    to the first missing key; [fuel] bounds the number of keys. *)
Fixpoint read_types (fuel i : nat) (attrs : list (string * Json)) : list Json :=
  match fuel with
  | 0 => []
  | S f =>
      match dict_get attrs ("type" ++ str_of_nat i)%string with
      | Some t => t :: read_types f (S i) attrs
      | None => []
      end
  end.

(** [ArrayObject._unpack_kwargs]: the ensemble axes metadata decoded and
    the other keyword arguments, the key "type" dropped. *)
Fixpoint unpack_loop (kv : list (string * Json)) (eam : list AxisMetadata)
    (rest : list (string * Json)) : result (list AxisMetadata * list (string * Json)) :=
  match kv with
  | [] => Ok (eam, rest)
  | (k, v) :: kv' =>
      if String.eqb k "ensemble_axes_metadata" then
        match v with
        | JList ds => eam' <- mapM axis_from_dict ds ;; unpack_loop kv' eam' rest
        | _ => Raise TypeError
        end
      else if String.eqb k "type" then unpack_loop kv' eam rest
      else unpack_loop kv' eam (dict_set rest k v)
  end%string.

Definition _unpack_kwargs (attrs : Json) : result (list AxisMetadata * list (string * Json)) :=
  match attrs with
  | JObj kv => unpack_loop kv [] []
  | _ => Raise TypeError
  end.

(** A key that is none of those [_unpack_kwargs] and [construct] treat
    specially. *)
Definition plain_key (k : string) : Prop :=
  k <> "ensemble_axes_metadata"%string /\ k <> "metadata"%string /\ k <> "type"%string.

Fixpoint dict_remove (d : list (string * Json)) (k : string) : list (string * Json) :=
  match d with
  | [] => []
  | (k', v) :: r => if String.eqb k k' then dict_remove r k else (k', v) :: dict_remove r k
  end.

(** [cls(array, **kwargs)]: a subclass constructor stores its keyword
    arguments, which [_copy_kwargs] gives back (the convention every
    [self.__class__( **kwargs)] of the sources relies on); [metadata]
    defaults to an empty dict. *)
Definition construct {V} (cls : ArrayClass) (a : ndarray V)
    (kwargs : list AxisMetadata * list (string * Json)) : result (ArrayObject V) :=
  let (eam, rest) := kwargs in
  md <- match dict_get rest "metadata" with
        | None => Ok []
        | Some (JObj m) => Ok m
        | Some _ => Raise TypeError
        end ;;
  Ok (mk_obj cls a eam md (dict_remove rest "metadata")).

Fixpoint find_class (classes : list ArrayClass) (name : string) : option ArrayClass :=
  match classes with
  | [] => None
  | c :: r => if String.eqb (cls_name c) name then Some c else find_class r name
  end.

(** What [from_zarr] returns: one object, or a list of them. *)
Inductive ZarrOut (V : Type) : Type :=
| ZSingle (x : ArrayObject V)
| ZMany (xs : list (ArrayObject V)).
Arguments ZSingle {V} x.
Arguments ZMany {V} xs.

(** [from_zarr]; [classes] stands for the names [getattr(abtem, t)] finds,
    and [da.from_zarr] reads the component back as a lazy array. *)
Definition from_zarr {V} (classes : list ArrayClass) (st : ZarrStore V)
  : result (ZarrOut V) :=
  let types := read_types (S (length (z_attrs st))) 0 (z_attrs st) in
  imported <- mapM (fun p =>
      let i := str_of_nat (fst p) in
      cls <- match snd p with
             | JStr t => of_option (AttributeError t) (find_class classes t)
             | _ => Raise TypeError
             end ;;
      packed <- of_option (KeyError ("kwargs" ++ i)) (dict_get (z_attrs st) ("kwargs" ++ i)) ;;
      kwargs <- _unpack_kwargs packed ;;
      comp <- of_option (KeyError ("array" ++ i))
                (match find (fun kv => String.eqb (fst kv) ("array" ++ i)) (z_arrays st) with
                 | Some kv => Some (snd kv)
                 | None => None
                 end) ;;
      construct cls (mk_ndarray (fst comp) (snd comp) true) kwargs)%string
    (combine (seq 0 (length types)) types) ;;
  match imported with
  | [y] => Ok (ZSingle y)
  | ys => Ok (ZMany ys)
  end.

(** ** Transforms *)

(** A transform is seen through its [apply]: an array object in, an array
    object (or an error) out. *)
Definition Transform (V : Type) : Type := ArrayObject V -> result (ArrayObject V).

(** Sequential application, each output fed to the next transform. *)
Definition apply_in_order {V} (ts : list (Transform V)) (x : ArrayObject V)
  : result (ArrayObject V) :=
  fold_left (fun acc t => w <- acc ;; t w) ts (Ok x).

(** [CompositeWaveTransform.apply] (abtem/core/transform.py);
    [check_is_defined] is [waves.grid.check_is_defined()]. *)
Definition composite_wave_apply {V} (check_is_defined : ArrayObject V -> result unit)
    (wave_transforms : list (Transform V)) (waves : ArrayObject V)
  : result (ArrayObject V) :=
  _ <- check_is_defined waves ;;
  fold_left (fun acc t => w <- acc ;; t w) (rev wave_transforms) (Ok waves).

(** [CompositeArrayObjectTransform._calculate_new_array] (abtem/transform.py)
    for a composite whose last member has one output. *)
Definition composite_calculate_new_array {V} (transforms : list (Transform V))
    (x : ArrayObject V) : result (ndarray V) :=
  y <- fold_left (fun acc t => w <- acc ;; t w) transforms (Ok x) ;;
  Ok (ao_array y).

(** ** Scans: [sort_into_extents] *)

Definition Position : Type := (Q * Q)%type.




(** The scans of scan.py. *)
Inductive Scan : Type :=
| CustomScan (positions : list Position)
| GridScan (start end_ sampling : Q * Q) (gpts : nat * nat)
| LineScan (gpts : nat).

(** [len(scan)] *)
Definition num_positions (s : Scan) : nat :=
  match s with
  | CustomScan ps => length ps
  | GridScan _ _ _ g => fst g * snd g
  | LineScan n => n
  end.




(** ** The axes metadata check *)

(** [ArrayObject._check_axes_metadata]; [base_axes_metadata] is the
    subclass's abstract property.  Its first test compares [len(self.shape)]
    with itself. *)
Definition _check_axes_metadata {V} (x : ArrayObject V)
    (base_axes_metadata : list AxisMetadata) : result unit :=
  if negb (length (shape x) =? length (shape x)) then
    Raise (RuntimeError "number of dimensions does not match number of axis metadata items")
  else if existsb (fun p => match snd p with
                            | OrdinalAxis _ vs => negb (length vs =? fst p)
                            | _ => false
                            end)
                  (combine (shape x) (ao_ensemble_axes_metadata x ++ base_axes_metadata)) then
    Raise (RuntimeError "number of values for ordinal axis does not match size of dimension")
  else Ok tt.

(** ** More of [ArrayObject]: expand_dims, squeeze, generate_ensemble,
    set_ensemble_axes_metadata and the JSON metadata *)

(** Python's [list.insert(i, x)] for any integer [i]: a negative index
    counts from the end (clamped at 0), an index past the end appends. *)
Definition py_list_insert {A} (i : Z) (x : A) (l : list A) : list A :=
  let n := Z.of_nat (length l) in
  list_insert (Z.to_nat (if (i <? 0)%Z then Z.max 0 (i + n) else i)) x l.

(** Python's [l[i] = v] on a list: a negative index counts from the end, an
    index out of range raises IndexError. *)
Definition py_list_set {A} (l : list A) (i : Z) (v : A) : result (list A) :=
  let n := Z.of_nat (length l) in
  let i' := if (i <? 0)%Z then (i + n)%Z else i in
  if (0 <=? i')%Z && (i' <? n)%Z then
    Ok (firstn (Z.to_nat i') l ++ v :: skipn (S (Z.to_nat i')) l)
  else Raise IndexError.

(** The shape built by the module-level [expand_dims]: [1] on the new axes,
    the next old dimension elsewhere; [next] on an exhausted iterator
    raises StopIteration. *)
Fixpoint expanded_shape (ax : list nat) (p n : nat) (src : list nat) : result (list nat) :=
  match n with
  | 0 => Ok []
  | S n' =>
      if existsb (Nat.eqb p) ax then
        r <- expanded_shape ax (S p) n' src ;; Ok (1 :: r)
      else
        match src with
        | [] => Raise (BackendError "StopIteration")
        | d :: src' => r <- expanded_shape ax (S p) n' src' ;; Ok (d :: r)
        end
  end.

(** The module-level [expand_dims(a, axis)] of array.py: dask's
    [validate_axis] normalises the axes against the output rank, and
    [a.reshape(shape)] checks the size. *)
Definition expand_dims_nd {V} (a : ndarray V) (axis : list Z) : result (ndarray V) :=
  let out_ndim := length axis + length (nd_shape a) in
  ax <- mapM (normalize_axis out_ndim) axis ;;
  s <- expanded_shape ax 0 out_ndim (nd_shape a) ;;
  if prod s =? prod (nd_shape a) then Ok (mk_ndarray s (nd_data a) (nd_lazy a))
  else Raise (ValueError "cannot reshape array").

Section AxesNormalisation.
Context {V : Type}.

(** [normalize_axes] of abtem.core.utils, applied to the axes and the shape. *)
Variable normalize_axes : list Z -> list nat -> result (list Z).

(** [ArrayObject.expand_dims]; [None] arguments are [None]. *)
Definition expand_dims (x : ArrayObject V) (axis : option (list Z))
    (axis_metadata : option (list AxisMetadata)) : result (ArrayObject V) :=
  let axis := match axis with None => [0%Z] | Some a => a end in
  let axis_metadata :=
    match axis_metadata with None => repeat UnknownAxis (length axis) | Some m => m end in
  ax <- normalize_axes axis (shape x) ;;
  if existsb (fun a => Z.of_nat (length (ensemble_shape x) + length ax) <=? a)%Z ax then
    Raise (RuntimeError "")
  else
    let eam := fold_left (fun acc p => py_list_insert (fst p) (snd p) acc)
                         (combine ax axis_metadata) (ao_ensemble_axes_metadata x) in
    arr <- expand_dims_nd (ao_array x) ax ;;
    Ok (mk_obj (ao_cls x) arr eam (ao_metadata x) (ao_kwargs x)).

(** [xp.squeeze(a, axis=axes)] for numpy and dask. *)
Definition np_squeeze (a : ndarray V) (axes : list nat) : result (ndarray V) :=
  let s := nd_shape a in
  if existsb (fun i => length s <=? i) axes then Raise AxisError
  else if has_dup axes then Raise (ValueError "repeated axis")
  else if existsb (fun i => negb (nth i s 0 =? 1)) axes then
    Raise (ValueError "cannot select an axis to squeeze out which has size not equal to one")
  else
    Ok (mk_ndarray (map snd (filter (fun p => negb (existsb (Nat.eqb (fst p)) axes))
                                    (combine (seq 0 (length s)) s)))
                   (nd_data a) (nd_lazy a)).

(** [ArrayObject.squeeze]; the axes it squeezes are the positions of
    [np.where] over the ensemble part of the shape. *)
Definition squeeze (x : ArrayObject V) (axis : option (list Z)) : result (ArrayObject V) :=
  if length (nd_shape (ao_array x)) <? length (base_shape x) then Ok x
  else
    ax <- match axis with
          | None => Ok (map Z.of_nat (seq 0 (length (shape x))))
          | Some a => normalize_axes a (shape x)
          end ;;
    let k := length (base_shape x) in
    let sh := if k =? 0 then [] else firstn (length (shape x) - k) (shape x) in
    let squeezed :=
      map fst (filter (fun p => (snd p =? 1) && existsb (Z.eqb (Z.of_nat (fst p))) ax)
                      (combine (seq 0 (length sh)) sh)) in
    arr <- np_squeeze (ao_array x) squeezed ;;
    Ok (mk_obj (ao_cls x) arr
               (map fst (filter (fun p => negb (existsb (Nat.eqb (snd p)) squeezed))
                                (combine (ao_ensemble_axes_metadata x)
                                         (seq 0 (length (ao_ensemble_axes_metadata x))))))
               (ao_metadata x) (ao_kwargs x)).

End AxesNormalisation.

(** [ArrayObject.generate_ensemble]: one [(index, member)] pair for each
    index of [np.ndindex( *ensemble_shape)]; a member whose [get_items]
    raises is that exception. *)
Definition generate_ensemble {V} (x : ArrayObject V) (keepdims : bool)
  : list (list nat * result (ArrayObject V)) :=
  map (fun i => (i, get_items x (ITuple (map (fun k => IInt (Z.of_nat k)) i)) keepdims))
      (all_indices (ensemble_shape x)).

(** [ArrayObject.set_ensemble_axes_metadata]: the object's list is updated in
    place and then checked; the pair is the object after the call and the
    outcome.  [base_axes_metadata] is the subclass's property. *)
Definition set_ensemble_axes_metadata {V}
    (base_axes_metadata : ArrayObject V -> list AxisMetadata)
    (x : ArrayObject V) (axes_metadata : AxisMetadata) (axis : Z)
  : ArrayObject V * result (ArrayObject V) :=
  match py_list_set (ao_ensemble_axes_metadata x) axis axes_metadata with
  | Raise e => (x, Raise e)
  | Ok eam =>
      let x' := mk_obj (ao_cls x) (ao_array x) eam (ao_metadata x) (ao_kwargs x) in
      (x', _ <- _check_axes_metadata x' (base_axes_metadata x') ;; Ok x')
  end.

(** [ArrayObject._metadata_to_dict] (and the dict [_metadata_to_json]
    serialises): a shallow copy of the metadata with the keys "axes",
    "data_origin" and "type" set.  The axes dict has the distinct keys
    [axis_0], [axis_1], ... in order. *)
Definition _metadata_to_dict {V} (axis_to_dict : AxisMetadata -> Json) (version : string)
    (base_axes_metadata : ArrayObject V -> list AxisMetadata) (x : ArrayObject V)
  : list (string * Json) :=
  let axes := ao_ensemble_axes_metadata x ++ base_axes_metadata x in
  let md := dict_set (ao_metadata x) "axes"
              (JObj (map (fun p => ("axis_" ++ str_of_nat (fst p), axis_to_dict (snd p)))%string
                         (combine (seq 0 (length axes)) axes))) in
  let md := dict_set md "data_origin" (JStr ("abTEM_v" ++ version)) in
  dict_set md "type" (JStr (cls_name (ao_cls x))).

(** [ArrayObject._metadata_from_json_string] after [json.loads]. *)
Definition _metadata_from_dict (axis_from_dict : Json -> result AxisMetadata)
    (classes : list ArrayClass) (metadata : Json)
  : result (ArrayClass * list AxisMetadata * list (string * Json)) :=
  match metadata with
  | JObj md =>
      t <- of_option (KeyError "type") (dict_get md "type") ;;
      cls <- match t with
             | JStr s => of_option (AttributeError s) (find_class classes s)
             | _ => Raise TypeError
             end ;;
      let md := dict_remove md "type" in
      axes <- of_option (KeyError "axes") (dict_get md "axes") ;;
      ams <- match axes with
             | JObj kv => mapM (fun kv => axis_from_dict (snd kv)) kv
             | _ => Raise TypeError
             end ;;
      Ok (cls, ams, dict_remove md "axes")
  | _ => Raise TypeError
  end%string.

(** ** More of the transforms: [__add__], the composites' metadata, [insert]
    and the argument indices of [_from_partitioned_args] *)

(** A transform as [__add__] sees it: a single transform, or a composite
    holding its list of members ([transforms], resp. [wave_transforms]). *)
Inductive TransformTree (A : Type) : Type :=
| TAtom (a : A)
| TComposite (members : list (TransformTree A)).
Arguments TAtom {A} a.
Arguments TComposite {A} members.

(** What [__add__] takes from one operand: the members of a composite
    ([hasattr(transform, "transforms")]), else the transform itself. *)
Definition add_members {A} (t : TransformTree A) : list (TransformTree A) :=
  match t with
  | TComposite ts => ts
  | TAtom _ => [t]
  end.

(** [ArrayObjectTransform.__add__] and [WaveTransform.__add__]. *)
Definition transform_add {A} (a b : TransformTree A) : TransformTree A :=
  TComposite (add_members a ++ add_members b).

(** [functools.reduce(f, l)] without an initial value: TypeError on an
    empty sequence. *)
Definition py_reduce {A} (f : A -> A -> A) (l : list A) : result A :=
  match l with
  | [] => Raise TypeError
  | x :: r => Ok (fold_left f r x)
  end.

(** [CompositeWaveTransform.metadata]: [reduce(lambda a, b: {**a, **b}, ...)]
    over the members' metadata. *)
Definition composite_metadata (member_metadata : list (list (string * Json)))
  : result (list (string * Json)) :=
  py_reduce dict_merge member_metadata.

(** [CompositeArrayObjectTransform._out_metadata]: the composite's own
    [_metadata] if set, else the merge of the members' [_out_metadata]. *)
Definition composite_out_metadata {V} (own_metadata : option (list (string * Json)))
    (member_out_metadata : list (ArrayObject V -> list (string * Json)))
    (array_object : ArrayObject V) : result (list (string * Json)) :=
  match own_metadata with
  | Some m => Ok m
  | None => py_reduce dict_merge (map (fun f => f array_object) member_out_metadata)
  end.

(** [ArrayObjectTransform._out_metadata], the default of a member:
    the metadata of its input. *)
Definition default_out_metadata {V} (array_object : ArrayObject V) : list (string * Json) :=
  ao_metadata array_object.

(** The later value of each key, as [{**a, **b}] keeps it. *)
Definition last_step (k : string) (acc : option Json) (m : list (string * Json)) : option Json :=
  match dict_get m k with Some v => Some v | None => acc end.

Definition last_value (ms : list (list (string * Json))) (k : string) : option Json :=
  fold_left (last_step k) ms None.

(** [CompositeArrayObjectTransform.insert(transform, index)]: the member
    list is updated in place ([list.insert]) and the composite returned. *)
Definition composite_insert {A} (transforms : list (TransformTree A))
    (transform : TransformTree A) (index : Z) : TransformTree A :=
  TComposite (py_list_insert index transform transforms).

(** The [arg_indices] of [_from_partitioned_args] (both composites):
    [tuple(range(i, i + len(member.ensemble_shape)))], then [i += len]. *)
Fixpoint partition_arg_indices (i : nat) (ensemble_dims : list nat) : list (list nat) :=
  match ensemble_dims with
  | [] => []
  | n :: r => seq i n :: partition_arg_indices (i + length (seq i n)) r
  end.

(** The arguments [ctf] / [_partial] passes to each member's factory:
    [[args[i] for i in p[1]]] (IndexError past the end). *)
Definition partial_member_args {A} (args : list A) (indices : list (list nat))
  : result (list (list A)) :=
  mapM (fun ix => mapM (fun i => of_option IndexError (nth_error args i)) ix) indices.

(** ** More of the scans: [partition_args] *)

(** [np.cumsum] *)
Fixpoint cumsum_from (acc : nat) (l : list nat) : list nat :=
  match l with
  | [] => []
  | n :: r => (acc + n) :: cumsum_from (acc + n) r
  end.

(** [CustomScan.partition_args] on validated chunks: block [i] is
    [positions[start_chunk:start_chunk + chunk]] for the pairs of
    [zip((0,) + cumchunks, chunks[0])]. *)
Definition custom_partition_args (positions : list Position) (chunks0 : list nat)
  : list (list Position) :=
  map (fun p => firstn (snd p) (skipn (fst p) positions))
      (combine (0 :: cumsum_from 0 chunks0) chunks0).

(** One block dict of [GridScan.partition_args]:
    [{'start': ..., 'end': ..., 'gpts': ..., 'endpoint': False}]. *)
Record GridBlock : Type := mk_block {
  gb_start : Q;
  gb_end : Q;
  gb_gpts : nat;
  gb_endpoint : bool
}.

(** The blocks of [GridScan.partition_args] along one axis [i], with
    [self.start[i]] and [self.sampling[i]]. *)
Definition grid_axis_blocks (start sampling : Q) (chunks : list nat) : list GridBlock :=
  map (fun p =>
         let st := (start + inject_Z (Z.of_nat (fst p)) * sampling)%Q in
         mk_block st (st + sampling * inject_Z (Z.of_nat (snd p)))%Q (snd p) false)
      (combine (0 :: cumsum_from 0 chunks) chunks).

(** [GridScan.partition_args] on validated chunks (one list per axis);
    [check_is_defined] is [self.grid.check_is_defined()]. *)
Definition grid_partition_args (check_is_defined : result unit)
    (start sampling : Q * Q) (chunks : list nat * list nat)
  : result (list GridBlock * list GridBlock) :=
  _ <- check_is_defined ;;
  Ok (grid_axis_blocks (fst start) (fst sampling) (fst chunks),
      grid_axis_blocks (snd start) (snd sampling) (snd chunks)).

(** ** Sample inputs *)

(** An integer backend: reductions over a non-empty list (mean rounds
    down; std is not provided) and the arithmetic dunders. *)
Definition z_reduce (fn : string) (l : list Z) : option Z :=
  match l with
  | [] => None
  | h :: t =>
      if String.eqb fn "sum" then Some (fold_right Z.add 0 l)%Z
      else if String.eqb fn "mean" then Some (fold_right Z.add 0 l / Z.of_nat (length l))%Z
      else if String.eqb fn "max" then Some (fold_right Z.max h t)
      else if String.eqb fn "min" then Some (fold_right Z.min h t)
      else None
  end%string.

Definition z_binop (func : string) (a b : Z) : Z :=
  (if existsb (String.eqb func) ["__add__"; "__iadd__"] then (a + b)%Z
  else if existsb (String.eqb func) ["__sub__"; "__isub__"] then (a - b)%Z
  else if existsb (String.eqb func) ["__mul__"; "__imul__"] then (a * b)%Z
  else if existsb (String.eqb func) ["__truediv__"; "__itruediv__"] then (a / b)%Z
  else Z.pow a b)%string.

Definition zxp : ArrayModule Z := {| xp_reduce := z_reduce; xp_binop := z_binop |}.

(** A measurement with one base dimension ([_base_dims = 1], like a line
    profile), ensemble shape (2, 3) described by two ordinal axes and base
    shape (4,). *)
Definition profiles : ArrayClass := mk_class "RealSpaceLineProfiles"%string 1.

Definition axis_a : AxisMetadata := OrdinalAxis "a" [JStr "a0"; JStr "a1"]%string.
Definition axis_b : AxisMetadata := OrdinalAxis "b" [JStr "b0"; JStr "b1"; JStr "b2"]%string.

Definition x234 (lazy : bool) : ArrayObject Z :=
  mk_obj profiles (mk_ndarray [2; 3; 4] (map Z.of_nat (seq 0 24)) lazy)
         [axis_a; axis_b] [] [].

(** A one-dimensional eager object of shape (4,) and no ensemble axes. *)
Definition x4 (d : list Z) : ArrayObject Z :=
  mk_obj profiles (mk_ndarray [4] d false) [] [] [].

(** Two transforms that do not commute: adding one, doubling. *)
Definition add_one : Transform Z := fun x => __add__ zxp x (OpScalar 1%Z).
Definition double : Transform Z := fun x => __mul__ zxp x (OpScalar 2%Z).

(** A grid check that always passes. *)
Definition grid_ok {V} (x : ArrayObject V) : result unit := Ok tt.



(** An object of the same class with a unit first ensemble axis:
    shape (1, 3, 4). *)
Definition x134 : ArrayObject Z :=
  mk_obj profiles (mk_ndarray [1; 3; 4] (map Z.of_nat (seq 0 12)) false)
         [UnknownAxis; axis_b] [] [].

(** A stand-in for [normalize_axes] of abtem.core.utils: a negative axis
    counts from the end of the shape. *)
Definition py_normalize_axes (axes : list Z) (shp : list nat) : result (list Z) :=
  Ok (map (fun a => if (a <? 0)%Z then (a + Z.of_nat (length shp))%Z else a) axes).

(** * Properties *)

(** ** Reflexivity of the equality tests *)

Lemma json_eqb_refl : forall j, json_eqb j j = true.
Proof.
  fix IH 1. intros [| b | q | s | l | kv]; simpl.
  - reflexivity.
  - apply Bool.eqb_reflx.
  - apply Qeq_bool_iff. reflexivity.
  - apply String.eqb_refl.
  - revert l. fix IHl 1. intros [| j l]; [reflexivity |].
    simpl. rewrite IH. apply IHl.
  - revert kv. fix IHkv 1. intros [| [k j] kv]; [reflexivity |].
    simpl. rewrite String.eqb_refl, IH. apply IHkv.
Qed.

Lemma json_list_eqb_refl : forall l, json_list_eqb l l = true.
Proof. induction l; simpl; [reflexivity |]. now rewrite json_eqb_refl. Qed.

Lemma axis_eqb_refl : forall a, axis_eqb a a = true.
Proof.
  intros []; simpl; rewrite ?String.eqb_refl, ?json_list_eqb_refl, ?Bool.eqb_reflx;
    try reflexivity.
  assert (Hq : forall q, Qeq_bool q q = true) by (intro; apply Qeq_bool_iff; reflexivity).
  now rewrite !Hq.
Qed.

Lemma axes_eqb_refl : forall l, axes_eqb l l = true.
Proof. induction l; simpl; [reflexivity |]. now rewrite axis_eqb_refl. Qed.

Lemma kwval_eqb_refl : forall k, kwval_eqb k k = true.
Proof. intros []; simpl; [apply axes_eqb_refl | apply json_eqb_refl]. Qed.

Lemma class_eqb_refl : forall c, class_eqb c c = true.
Proof. intros c. unfold class_eqb. now rewrite String.eqb_refl, Nat.eqb_refl. Qed.

Lemma nat_list_eqb_refl : forall l, nat_list_eqb l l = true.
Proof.
  intros l. unfold nat_list_eqb. rewrite Nat.eqb_refl. simpl.
  induction l; simpl; [reflexivity |]. now rewrite Nat.eqb_refl.
Qed.

Lemma existsb_combine_self_kwval : forall l,
  existsb (fun p => negb (kwval_eqb (fst p) (snd p))) (combine l l) = false.
Proof. induction l; simpl; [reflexivity |]. now rewrite kwval_eqb_refl. Qed.

(** ** C10: reductions over all axes *)

(** C10. With [axis=None], [_reduction] (behind mean, sum, std, min and max)
    returns the fully reduced value of the backing array: a bare scalar for
    an eager object, a lazy 0-d array for a lazy one; it never returns an
    array object, so no axis metadata is attached. *)
Theorem C10_reduction_none_returns_raw_value {V} (xp : ArrayModule V)
    (x : ArrayObject V) (reduction_func : string) (keepdims : bool) :
  (forall y, _reduction xp x reduction_func None keepdims <> Ok (RObject y)) /\
  _reduction xp x reduction_func None keepdims =
    match xp_reduce xp reduction_func (nd_data (ao_array x)) with
    | None => Raise (ValueError "zero-size array to reduction operation")
    | Some v => Ok (if is_lazy x then RLazyScalar (mk_ndarray [] [v] true) else RScalar v)
    end.
Proof.
  simpl. destruct (xp_reduce xp reduction_func (nd_data (ao_array x))) as [v |];
    simpl; [destruct (is_lazy x) |]; split; congruence.
Qed.

(** ** C9: arithmetic ignores the free-form metadata *)

(** C9. For two array objects of the same class and shape with the same
    ensemble axes metadata and the same other keyword arguments, but any
    free-form metadata, elementwise (not in-place) arithmetic passes the
    compatibility check and succeeds; the result keeps the left operand's
    class, metadata, ensemble axes metadata and keyword arguments, only its
    array is new. *)
Theorem C9_arithmetic_ignores_metadata {V} (xp : ArrayModule V)
    (x y : ArrayObject V) (func : string)
    (Hfunc : is_inplace_op func = false)
    (Hcls : ao_cls y = ao_cls x) (Hshape : shape y = shape x)
    (Heam : ao_ensemble_axes_metadata y = ao_ensemble_axes_metadata x)
    (Hkw : ao_kwargs y = ao_kwargs x) :
  exists r,
    _arithmetic xp x (OpObject y) func = Ok r /\
    ao_cls r = ao_cls x /\ ao_metadata r = ao_metadata x /\
    ao_ensemble_axes_metadata r = ao_ensemble_axes_metadata x /\
    ao_kwargs r = ao_kwargs x.
Proof.
  assert (Hcompat : _check_is_compatible x y = Ok tt).
  { unfold _check_is_compatible.
    rewrite Hcls, class_eqb_refl, Hshape, nat_list_eqb_refl.
    unfold compat_kwargs. rewrite Heam, Hkw, existsb_combine_self_kwval.
    reflexivity. }
  unfold _arithmetic. rewrite Hcompat. simpl.
  unfold nd_binop. rewrite Hfunc. simpl.
  unfold shape in Hshape. rewrite Hshape, nat_list_eqb_refl.
  eexists. split; [reflexivity |]. simpl. auto.
Qed.

Lemma C9_arithmetic_ignores_metadata_witness :
  let y := mk_obj profiles (mk_ndarray [4] [5; 6; 7; 8]%Z false) []
                  [("energy"%string, JNum 200)] [] in
  is_inplace_op "__add__" = false /\
  exists r,
    _arithmetic zxp (x4 [1; 2; 3; 4]%Z) (OpObject y) "__add__" = Ok r /\
    ao_cls r = ao_cls (x4 [1; 2; 3; 4]%Z) /\ ao_metadata r = ao_metadata (x4 [1; 2; 3; 4]%Z) /\
    ao_ensemble_axes_metadata r = ao_ensemble_axes_metadata (x4 [1; 2; 3; 4]%Z) /\
    ao_kwargs r = ao_kwargs (x4 [1; 2; 3; 4]%Z).
Proof.
  intros y. split; [reflexivity |].
  apply (C9_arithmetic_ignores_metadata zxp (x4 [1; 2; 3; 4]%Z) y "__add__");
    reflexivity.
Defined.

(** ** C8: stacking three objects of shape (4,) *)

Lemma ensemble_shape_len_nonneg {V} (x : ArrayObject V) :
  (0 <=? Z.of_nat (length (ensemble_shape x)))%Z = true.
Proof. apply Z.leb_le. lia. Qed.

(** C8. Stacking three array objects of shape (4,) along a new axis 0 with
    [axis_metadata=None] succeeds with an object of shape (3, 4) whose
    first ensemble axis is an UnknownAxis. *)
Theorem C8_stack_three_vectors {V} (a b c : ArrayObject V)
    (Ha : shape a = [4]) (Hb : shape b = [4]) (Hc : shape c = [4])
    (Hda : length (nd_data (ao_array a)) = 4)
    (Hdb : length (nd_data (ao_array b)) = 4)
    (Hdc : length (nd_data (ao_array c)) = 4) :
  exists r, stack [a; b; c] SANone 0 = Ok r /\ shape r = [3; 4] /\
            hd_error (ao_ensemble_axes_metadata r) = Some UnknownAxis.
Proof.
  unfold stack. cbn [hd_error of_option bind].
  rewrite ensemble_shape_len_nonneg. cbn [negb bind Z.leb Z.compare].
  destruct a as [ca [sa da la] ea ma ka], b as [cb [sb db lb] eb mb kb],
           c as [cc [sc dc lc] ec mc kc].
  unfold shape in *; simpl in *. subst sa sb sc.
  destruct da as [| a0 [| a1 [| a2 [| a3 [|]]]]]; simpl in Hda; try discriminate.
  destruct db as [| b0 [| b1 [| b2 [| b3 [|]]]]]; simpl in Hdb; try discriminate.
  destruct dc as [| c0 [| c1 [| c2 [| c3 [|]]]]]; simpl in Hdc; try discriminate.
  eexists. split; [reflexivity |]. split; reflexivity.
Qed.

Lemma C8_stack_three_vectors_witness :
  shape (x4 [1; 2; 3; 4]%Z) = [4] /\ length (nd_data (ao_array (x4 [1; 2; 3; 4]%Z))) = 4 /\
  exists r, stack [x4 [1; 2; 3; 4]%Z; x4 [5; 6; 7; 8]%Z; x4 [9; 10; 11; 12]%Z] SANone 0 = Ok r /\
            shape r = [3; 4] /\ hd_error (ao_ensemble_axes_metadata r) = Some UnknownAxis.
Proof.
  split; [reflexivity |]. split; [reflexivity |].
  apply C8_stack_three_vectors; reflexivity.
Defined.

(** ** C1 and C6: which axes a reduction accepts *)

(** C1. [_is_base_axis] tests the axes against [range(len(base_shape))],
    the leading axes, not the trailing base axes.  On an object with one
    base dimension and shape (2, 3, 4), every reduction (any backend, eager
    or lazy, with or without keepdims) over ensemble axis 0 raises "base
    axes cannot be reduced", while a reduction over the base axis 2 is
    carried out. *)
Theorem C1_reduction_base_axis_test_inverted (xp : ArrayModule Z)
    (reduction_func : string) (lazy keepdims : bool) :
  _reduction xp (x234 lazy) reduction_func (Some [0%Z]) keepdims =
    Raise (RuntimeError "base axes cannot be reduced") /\
  exists r, mean zxp (x234 false) (Some [2%Z]) true = Ok (RObject r) /\
            shape r = [2; 3; 1].
Proof.
  split; [reflexivity |].
  eexists. split; reflexivity.
Qed.

(** C6. The same reduction over the base axis 2 without keepdims returns an
    object of rank 2 that still carries two ensemble axes metadata entries
    and one base dimension, so [len(shape) = len(ensemble_axes_metadata) +
    base_dims] fails; [_check_axes_metadata] accepts that object. *)
Theorem C6_reduction_breaks_rank_invariant :
  exists r, sum zxp (x234 false) (Some [2%Z]) false = Ok (RObject r) /\
            length (shape r) = 2 /\
            length (ao_ensemble_axes_metadata r) + base_dims (ao_cls r) = 3 /\
            _check_axes_metadata r [UnknownAxis] = Ok tt.
Proof.
  eexists. split; [reflexivity |]. repeat split; reflexivity.
Qed.

(** ** C2: integer indexing of an ensemble axis *)

(** C2. [get_items] reads the item metadata of an integer-indexed axis at
    index 0, whatever the index: on an eager object of ensemble shape
    (2, 3) with two ordinal axes, [get_items((1,))] gives shape (3, 4) and
    one remaining axis, but merges the value at index 0 of axis 0 ("a0")
    into the metadata, not the value at index 1 ("a1"). *)
Theorem C2_get_items_folds_index_zero :
  item_metadata axis_a 1 = Ok [("a"%string, JStr "a1")] /\
  exists r, get_items (x234 false) (ITuple [IInt 1]) false = Ok r /\
            shape r = [3; 4] /\ ao_ensemble_axes_metadata r = [axis_b] /\
            ao_metadata r = [("a"%string, JStr "a0")] /\
            dict_get (ao_metadata r) "a" <> Some (JStr "a1").
Proof.
  split; [reflexivity |].
  eexists. split; [reflexivity |]. repeat split; try reflexivity.
  simpl. discriminate.
Qed.

(** ** C5: in-place arithmetic on lazy objects *)

(** C5. On a lazy object [+=], [-=] and [*=] raise the unsupported-operation
    error of [_in_place_arithmetic], whatever the other operand; [/=]
    ([__itruediv__]) calls [_arithmetic] directly and never raises that
    error. *)
Theorem C5_itruediv_skips_lazy_guard {V} (xp : ArrayModule V) (x : ArrayObject V)
    (other : Operand V) (Hlazy : is_lazy x = true) :
  __iadd__ xp x other = Raise (RuntimeError inplace_lazy_msg) /\
  __isub__ xp x other = Raise (RuntimeError inplace_lazy_msg) /\
  __imul__ xp x other = Raise (RuntimeError inplace_lazy_msg) /\
  __itruediv__ xp x other <> Raise (RuntimeError inplace_lazy_msg).
Proof.
  unfold __iadd__, __isub__, __imul__, _in_place_arithmetic. rewrite Hlazy.
  split; [reflexivity |]. split; [reflexivity |]. split; [reflexivity |].
  unfold __itruediv__, _arithmetic, nd_binop.
  unfold is_lazy in Hlazy. rewrite Hlazy.
  destruct other as [y | a | v]; simpl; try discriminate.
  unfold _check_is_compatible.
  destruct (negb (class_eqb (ao_cls y) (ao_cls x))); [discriminate |].
  destruct (negb (nat_list_eqb (shape x) (shape y))); [discriminate |].
  destruct (existsb _ _); discriminate.
Qed.

Lemma C5_itruediv_skips_lazy_guard_witness :
  is_lazy (x234 true) = true /\
  __iadd__ zxp (x234 true) (OpScalar 2%Z) = Raise (RuntimeError inplace_lazy_msg) /\
  __isub__ zxp (x234 true) (OpScalar 2%Z) = Raise (RuntimeError inplace_lazy_msg) /\
  __imul__ zxp (x234 true) (OpScalar 2%Z) = Raise (RuntimeError inplace_lazy_msg) /\
  __itruediv__ zxp (x234 true) (OpScalar 2%Z) <> Raise (RuntimeError inplace_lazy_msg).
Proof.
  split; [reflexivity |].
  apply (C5_itruediv_skips_lazy_guard zxp (x234 true) (OpScalar 2%Z)). reflexivity.
Defined.

(** ** C3: the order of composite transforms *)

(** C3 (code bug).  For members [A; B], [CompositeArrayObjectTransform]
    computes its new array from [B(A(x))], applying the members forward,
    while [CompositeWaveTransform.apply] checks the grid and then computes
    [A(B(x))]: it loops over the reversed members.  On
    [CompositeWaveTransform([add_one, double])] the two orders give
    different results. *)
Theorem C3_composite_transform_order {V} (A B : Transform V)
    (check_is_defined : ArrayObject V -> result unit) (x : ArrayObject V) :
  composite_calculate_new_array [A; B] x = (y <- A x ;; z <- B y ;; Ok (ao_array z)) /\
  composite_calculate_new_array [A; B] x =
    (z <- apply_in_order [A; B] x ;; Ok (ao_array z)) /\
  composite_wave_apply check_is_defined [A; B] x =
    (_ <- check_is_defined x ;; y <- B x ;; A y) /\
  composite_wave_apply check_is_defined [A; B] x =
    (_ <- check_is_defined x ;; apply_in_order (rev [A; B]) x) /\
  composite_wave_apply grid_ok [add_one; double] (x4 [1; 2; 3; 4]%Z) <>
    apply_in_order [add_one; double] (x4 [1; 2; 3; 4]%Z).
Proof.
  unfold composite_calculate_new_array, composite_wave_apply, apply_in_order.
  split; [| split; [| split; [| split]]]; simpl.
  - destruct (A x) as [y |]; simpl; [| reflexivity].
    destruct (B y); reflexivity.
  - reflexivity.
  - destruct (check_is_defined x); simpl; [| reflexivity].
    destruct (B x); reflexivity.
  - reflexivity.
  - vm_compute. discriminate.
Qed.

(** ** C7: completeness of [sort_into_extents] *)













(** ** C4: the zarr round trip *)

Lemma axis_from_to_dict (a : AxisMetadata) : axis_from_dict (axis_to_dict a) = Ok a.
Proof. destruct a; reflexivity. Qed.

Lemma mapM_axis_from_to_dict (l : list AxisMetadata) :
  mapM axis_from_dict (map axis_to_dict l) = Ok l.
Proof. induction l; simpl; [reflexivity |]. now rewrite axis_from_to_dict, IHl. Qed.

Lemma dict_set_fresh (d : list (string * Json)) (k : string) (v : Json) :
  ~ In k (map fst d) -> dict_set d k v = d ++ [(k, v)].
Proof.
  induction d as [| [k' v'] d IH]; simpl; intros H; [reflexivity |].
  destruct (String.eqb_spec k k'); [subst; tauto |].
  rewrite IH by tauto. reflexivity.
Qed.

Lemma dict_remove_absent (d : list (string * Json)) (k : string) :
  ~ In k (map fst d) -> dict_remove d k = d.
Proof.
  induction d as [| [k' v'] d IH]; simpl; intros H; [reflexivity |].
  destruct (String.eqb_spec k k'); [subst; tauto |].
  rewrite IH by tauto. reflexivity.
Qed.

Lemma unpack_loop_plain (kw : list (string * Json)) :
  forall eam rest,
  NoDup (map fst kw) -> Forall plain_key (map fst kw) ->
  (forall k, In k (map fst kw) -> ~ In k (map fst rest)) ->
  unpack_loop kw eam rest = Ok (eam, rest ++ kw).
Proof.
  induction kw as [| [k v] kw IH]; intros eam rest Hnd Hplain Hfresh; simpl.
  - now rewrite app_nil_r.
  - inversion Hnd as [| ? ? Hk Hnd']; subst.
    inversion Hplain as [| ? ? [Hk1 [Hk2 Hk3]] Hplain']; subst.
    apply String.eqb_neq in Hk1, Hk3. rewrite Hk1, Hk3.
    rewrite dict_set_fresh by (apply Hfresh; left; reflexivity).
    rewrite IH; auto.
    + now rewrite <- app_assoc.
    + intros k' Hin. rewrite map_app, in_app_iff. simpl. intros [H | [H | []]].
      * exact (Hfresh k' (or_intror Hin) H).
      * subst. contradiction.
Qed.

Lemma unpack_pack_kwargs {V} (x : ArrayObject V) :
  NoDup (map fst (ao_kwargs x)) -> Forall plain_key (map fst (ao_kwargs x)) ->
  _unpack_kwargs (_pack_kwargs x) =
    Ok (ao_ensemble_axes_metadata x, ("metadata"%string, JObj (ao_metadata x)) :: ao_kwargs x).
Proof.
  intros Hnd Hplain. unfold _pack_kwargs, _unpack_kwargs. simpl.
  rewrite mapM_axis_from_to_dict. simpl.
  apply (unpack_loop_plain (ao_kwargs x) _ [("metadata"%string, JObj (ao_metadata x))]);
    auto.
  intros k Hin. simpl. intros [H | []]. subst.
  rewrite Forall_forall in Hplain. destruct (Hplain _ Hin) as [_ [H _]]. now apply H.
Qed.

Lemma to_zarr_single {V} (x : ArrayObject V) :
  to_zarr x =
    mk_store [("array0"%string, (shape (ensure_lazy x), nd_data (ao_array (ensure_lazy x))))]
             [("kwargs0"%string, _pack_kwargs (ensure_lazy x));
              ("type0"%string, JStr (cls_name (ao_cls (ensure_lazy x))))].
Proof. reflexivity. Qed.

Lemma from_zarr_single {V} (classes : list ArrayClass) (sh : list nat) (dat : list V)
    (pk : Json) (nm : string) :
  from_zarr classes (mk_store [("array0"%string, (sh, dat))]
                              [("kwargs0"%string, pk); ("type0"%string, JStr nm)]) =
  (y <- (cls <- of_option (AttributeError nm) (find_class classes nm) ;;
         kwargs <- _unpack_kwargs pk ;;
         construct cls (mk_ndarray sh dat true) kwargs) ;;
   Ok (ZSingle y)).
Proof.
  unfold from_zarr. simpl.
  destruct (find_class classes nm); simpl; [| reflexivity].
  destruct (_unpack_kwargs pk); simpl; [| reflexivity].
  destruct (construct _ _ _); reflexivity.
Qed.

Lemma ensure_lazy_fields {V} (x : ArrayObject V) :
  ao_cls (ensure_lazy x) = ao_cls x /\
  ao_ensemble_axes_metadata (ensure_lazy x) = ao_ensemble_axes_metadata x /\
  ao_metadata (ensure_lazy x) = ao_metadata x /\
  ao_kwargs (ensure_lazy x) = ao_kwargs x /\
  shape (ensure_lazy x) = shape x /\
  nd_data (ao_array (ensure_lazy x)) = nd_data (ao_array x) /\
  mk_obj (ao_cls (ensure_lazy x))
         (mk_ndarray (shape (ensure_lazy x)) (nd_data (ao_array (ensure_lazy x))) true)
         (ao_ensemble_axes_metadata (ensure_lazy x)) (ao_metadata (ensure_lazy x))
         (ao_kwargs (ensure_lazy x)) = ensure_lazy x.
Proof.
  destruct x as [c [s d [|]] eam md kw]; repeat split; reflexivity.
Qed.

Lemma from_zarr_to_zarr {V} (classes : list ArrayClass) (x : ArrayObject V)
    (Hcls : find_class classes (cls_name (ao_cls x)) = Some (ao_cls x))
    (Hnodup : NoDup (map fst (ao_kwargs x)))
    (Hkeys : Forall plain_key (map fst (ao_kwargs x))) :
  from_zarr classes (to_zarr x) = Ok (ZSingle (ensure_lazy x)).
Proof.
  destruct (ensure_lazy_fields x) as [Hc [He [Hm [Hk [Hs [Hd Hy]]]]]].
  rewrite to_zarr_single, from_zarr_single, Hc, Hcls. cbn [of_option bind].
  rewrite unpack_pack_kwargs by (rewrite Hk; assumption). cbn [bind construct dict_get].
  rewrite Hm, He. simpl.
  rewrite dict_remove_absent.
  - rewrite <- Hc, <- He, <- Hm, Hy. reflexivity.
  - rewrite Hk. intros Hin. rewrite Forall_forall in Hkeys.
    destruct (Hkeys _ Hin) as [_ [H _]]. now apply H.
Qed.

(** C4. Writing an array object (eager or lazy) with [to_zarr] and reading
    it back with [from_zarr] gives one object of the same class and shape,
    with the same array values, ensemble axes metadata, metadata and other
    keyword arguments, backed by a lazy array (it is [ensure_lazy(x)]);
    the class is found by name, and the other keyword arguments (distinct
    keys, as in a dict) use none of the names [_unpack_kwargs] handles
    apart. *)
Theorem C4_zarr_roundtrip {V} (classes : list ArrayClass) (x : ArrayObject V)
    (Hcls : find_class classes (cls_name (ao_cls x)) = Some (ao_cls x))
    (Hnodup : NoDup (map fst (ao_kwargs x)))
    (Hkeys : Forall plain_key (map fst (ao_kwargs x))) :
  exists y, from_zarr classes (to_zarr x) = Ok (ZSingle y) /\ y = ensure_lazy x /\
    ao_cls y = ao_cls x /\ shape y = shape x /\
    nd_data (ao_array y) = nd_data (ao_array x) /\
    ao_ensemble_axes_metadata y = ao_ensemble_axes_metadata x /\
    ao_metadata y = ao_metadata x /\ ao_kwargs y = ao_kwargs x.
Proof.
  exists (ensure_lazy x). rewrite from_zarr_to_zarr by assumption.
  destruct (ensure_lazy_fields x) as [Hc [He [Hm [Hk [Hs [Hd _]]]]]].
  repeat split; assumption.
Qed.

Lemma C4_zarr_roundtrip_witness :
  let x := mk_obj profiles (mk_ndarray [2; 3; 4] (map Z.of_nat (seq 0 24)) false)
                  [axis_a; axis_b] [("energy"%string, JNum 200)]
                  [("sampling"%string, JNum (1 # 20))] in
  find_class [profiles] (cls_name (ao_cls x)) = Some (ao_cls x) /\
  NoDup (map fst (ao_kwargs x)) /\ Forall plain_key (map fst (ao_kwargs x)) /\
  exists y, from_zarr [profiles] (to_zarr x) = Ok (ZSingle y) /\ y = ensure_lazy x /\
    ao_cls y = ao_cls x /\ shape y = shape x /\
    nd_data (ao_array y) = nd_data (ao_array x) /\
    ao_ensemble_axes_metadata y = ao_ensemble_axes_metadata x /\
    ao_metadata y = ao_metadata x /\ ao_kwargs y = ao_kwargs x.
Proof.
  intros x.
  assert (H1 : find_class [profiles] (cls_name (ao_cls x)) = Some (ao_cls x)) by reflexivity.
  assert (H2 : NoDup (map fst (ao_kwargs x))) by (simpl; constructor; [simpl; tauto | constructor]).
  assert (H3 : Forall plain_key (map fst (ao_kwargs x)))
    by (simpl; constructor; [unfold plain_key; repeat split; discriminate | constructor]).
  split; [exact H1 |]. split; [exact H2 |]. split; [exact H3 |].
  exact (C4_zarr_roundtrip [profiles] x H1 H2 H3).
Defined.

(** * More properties of the array objects, transforms and scans *)

Lemma dict_get_set d k v k' :
  dict_get (dict_set d k v) k' = if String.eqb k' k then Some v else dict_get d k'.
Proof.
  induction d as [|[k0 v0] r IH]; simpl.
  - destruct (String.eqb k' k); reflexivity.
  - destruct (String.eqb k k0) eqn:E.
    + apply String.eqb_eq in E; subst. simpl.
      destruct (String.eqb k' k0); reflexivity.
    + simpl. destruct (String.eqb k' k0) eqn:E2.
      * apply String.eqb_eq in E2; subst. rewrite String.eqb_sym, E. reflexivity.
      * exact IH.
Qed.

Lemma dict_get_app l1 l2 k :
  dict_get (l1 ++ l2) k = match dict_get l1 k with Some v => Some v | None => dict_get l2 k end.
Proof.
  induction l1 as [|[k0 v0] r IH]; simpl; [reflexivity|].
  destruct (String.eqb k k0); [reflexivity|exact IH].
Qed.

Lemma dict_get_merge d e k :
  dict_get (dict_merge d e) k =
  match dict_get (rev e) k with Some v => Some v | None => dict_get d k end.
Proof.
  unfold dict_merge. revert d.
  induction e as [|[k0 v0] e IH]; intro d; simpl; [reflexivity|].
  rewrite IH, dict_get_app. simpl.
  destruct (dict_get (rev e) k); [reflexivity|].
  rewrite dict_get_set. destruct (String.eqb k k0); reflexivity.
Qed.

Lemma dict_get_notin d k : ~ In k (map fst d) -> dict_get d k = None.
Proof.
  induction d as [|[k0 v0] r IH]; simpl; intro H; [reflexivity|].
  destruct (String.eqb k k0) eqn:E.
  - apply String.eqb_eq in E; subst. exfalso; apply H; left; reflexivity.
  - apply IH. intro; apply H; right; assumption.
Qed.

Lemma dict_get_rev_nodup m k : NoDup (map fst m) -> dict_get (rev m) k = dict_get m k.
Proof.
  induction m as [|[k0 v0] r IH]; simpl; intro H; [reflexivity|].
  inversion H; subst.
  rewrite dict_get_app, IH by assumption. simpl.
  destruct (String.eqb k k0) eqn:E.
  - apply String.eqb_eq in E; subst. rewrite dict_get_notin by assumption. reflexivity.
  - destruct (dict_get r k); reflexivity.
Qed.


Lemma fold_merge_get r acc k :
  Forall (fun m => NoDup (map fst m)) r ->
  dict_get (fold_left dict_merge r acc) k = fold_left (last_step k) r (dict_get acc k).
Proof.
  revert acc. induction r as [|m r IH]; intros acc H; simpl; [reflexivity|].
  inversion H; subst. rewrite IH by assumption. f_equal.
  rewrite dict_get_merge, dict_get_rev_nodup by assumption. reflexivity.
Qed.

Lemma py_reduce_merge_get ms d k :
  Forall (fun m => NoDup (map fst m)) ms ->
  py_reduce dict_merge ms = Ok d -> dict_get d k = last_value ms k.
Proof.
  destruct ms as [|m r]; simpl; intros H E; [discriminate|].
  injection E as <-. inversion H; subst.
  rewrite fold_merge_get by assumption. unfold last_value. simpl.
  f_equal. unfold last_step. destruct (dict_get m k); reflexivity.
Qed.

(** [CompositeWaveTransform.metadata] and [CompositeArrayObjectTransform._out_metadata]:
    reducing the members' metadata with [{**a, **b}] raises [TypeError] on no
    member, and otherwise the value of each key is the one of the last member
    that has it; an own [_out_metadata] is returned as is. *)
Theorem composite_metadata_later_wins :
  composite_metadata [] = Raise TypeError /\
  forall (V : Type) (ms : list (list (string * Json))) own
         (fs : list (ArrayObject V -> list (string * Json))) x,
  ms <> [] -> Forall (fun m => NoDup (map fst m)) ms ->
  fs <> [] -> Forall (fun f => NoDup (map fst (f x))) fs ->
  (exists d, composite_metadata ms = Ok d /\ forall k, dict_get d k = last_value ms k) /\
  composite_out_metadata None (@nil (ArrayObject V -> list (string * Json))) x = Raise TypeError /\
  composite_out_metadata (Some own) fs x = Ok own /\
  (exists d, composite_out_metadata None fs x = Ok d /\
             forall k, dict_get d k = last_value (map (fun f => f x) fs) k).
Proof.
  split; [reflexivity|].
  intros V ms own fs x Hms Hn Hfs Hf.
  split; [|split; [reflexivity|split; [reflexivity|]]].
  - destruct ms as [|m r]; [congruence|].
    eexists; split; [reflexivity|]. intro k.
    apply py_reduce_merge_get; [assumption|reflexivity].
  - destruct fs as [|f r]; [congruence|].
    eexists; split; [reflexivity|]. intro k.
    apply py_reduce_merge_get; [|reflexivity].
    apply Forall_map. exact Hf.
Qed.


(** [__add__] of the transforms: the members of [a + b] are those of [a]
    followed by those of [b], so the addition is associative. *)
Theorem transform_add_assoc {A} (a b c : TransformTree A) :
  add_members (transform_add a b) = add_members a ++ add_members b /\
  transform_add (transform_add a b) c = transform_add a (transform_add b c).
Proof.
  split; [reflexivity|]. unfold transform_add. simpl. rewrite app_assoc. reflexivity.
Qed.

Lemma list_insert_split {A} i (x : A) l : list_insert i x l = firstn i l ++ x :: skipn i l.
Proof.
  revert i. induction l as [|y l IH]; intros [|i]; simpl; try reflexivity.
  rewrite IH. reflexivity.
Qed.

(** [CompositeArrayObjectTransform.insert]: the new transform lands at the
    position [list.insert] gives the index (negative counted from the end,
    clamped to the list), and the other members keep their order. *)
Theorem composite_insert_position {A} (ts : list (TransformTree A)) t (i : Z) :
  let n := length ts in
  let j := if (i <? 0)%Z then Z.to_nat (Z.max 0 (i + Z.of_nat n)) else Nat.min (Z.to_nat i) n in
  j <= n /\
  composite_insert ts t i = TComposite (firstn j ts ++ t :: skipn j ts) /\
  nth_error (firstn j ts ++ t :: skipn j ts) j = Some t /\
  firstn j ts ++ skipn j ts = ts.
Proof.
  intros n j.
  assert (Hj : j <= n).
  { subst j. destruct (i <? 0)%Z eqn:E; [apply Z.ltb_lt in E; lia | lia]. }
  split; [exact Hj|]. split; [|split].
  - unfold composite_insert, py_list_insert. f_equal. rewrite list_insert_split.
    subst j n. destruct (i <? 0)%Z eqn:E; [reflexivity|].
    set (m := Z.to_nat i).
    destruct (Nat.le_ge_cases m (length ts)).
    + rewrite Nat.min_l by assumption. reflexivity.
    + rewrite Nat.min_r by assumption.
      rewrite !firstn_all2, !skipn_all2 by lia. reflexivity.
  - rewrite nth_error_app2; rewrite firstn_length_le by exact Hj; [|lia].
    rewrite Nat.sub_diag. reflexivity.
  - apply firstn_skipn.
Qed.

Lemma skipn_nth_error {A} (l : list A) i a :
  nth_error l i = Some a -> skipn i l = a :: skipn (S i) l.
Proof.
  revert i. induction l as [|y l IH]; intros [|i] H; simpl in *; try discriminate.
  - injection H as ->. reflexivity.
  - apply IH. exact H.
Qed.

Lemma mapM_nth_seq {A} (args : list A) n : forall i,
  i + n <= length args ->
  mapM (fun i => of_option IndexError (nth_error args i)) (seq i n) = Ok (firstn n (skipn i args)).
Proof.
  induction n as [|n IH]; intros i H; simpl; [reflexivity|].
  destruct (nth_error args i) eqn:E.
  2:{ apply nth_error_None in E. lia. }
  simpl. rewrite IH by lia. simpl.
  rewrite (skipn_nth_error _ _ _ E). reflexivity.
Qed.

Lemma firstn_skipn_add {A} a b (l : list A) :
  firstn a l ++ firstn b (skipn a l) = firstn (a + b) l.
Proof.
  revert l. induction a as [|a IH]; intros [|y l]; simpl; try reflexivity.
  - rewrite firstn_nil. reflexivity.
  - rewrite IH. reflexivity.
Qed.

Lemma partial_member_args_slices {A} (args : list A) dims : forall i,
  i + list_sum dims <= length args ->
  exists chunks, partial_member_args args (partition_arg_indices i dims) = Ok chunks /\
                 concat chunks = firstn (list_sum dims) (skipn i args) /\
                 map (@length A) chunks = dims.
Proof.
  induction dims as [|d dims IH]; intros i H; simpl.
  - exists []. split; [reflexivity|]. split; reflexivity.
  - unfold partial_member_args in *. simpl.
    rewrite mapM_nth_seq by (simpl in H; lia).
    rewrite length_seq.
    destruct (IH (i + d)) as (cs & E & Hc & Hl); [simpl in H; lia|].
    rewrite E. simpl. exists (firstn d (skipn i args) :: cs).
    split; [reflexivity|]. split.
    + simpl. rewrite Hc. replace (i + d) with (d + i) by lia.
      rewrite <- skipn_skipn. apply firstn_skipn_add.
    + simpl. rewrite Hl, firstn_length_le; [reflexivity|].
      rewrite length_skipn. simpl in H. lia.
Qed.

(** [_partial] and [_from_partitioned_args]: when the arguments are as many as
    the ensemble dimensions of the members together, the index slices cover
    [0 .. n-1] in order and each member gets its own contiguous chunk. *)
Theorem partitioned_args_slices {A} (args : list A) (ensemble_dims : list nat) :
  length args = list_sum ensemble_dims ->
  concat (partition_arg_indices 0 ensemble_dims) = seq 0 (list_sum ensemble_dims) /\
  exists chunks, partial_member_args args (partition_arg_indices 0 ensemble_dims) = Ok chunks /\
                 concat chunks = args /\ map (@length A) chunks = ensemble_dims.
Proof.
  intro H. split.
  - clear H. generalize 0. induction ensemble_dims as [|d r IH]; intro i; simpl; [reflexivity|].
    rewrite length_seq, IH, seq_app. reflexivity.
  - destruct (partial_member_args_slices args ensemble_dims 0) as (cs & E & Hc & Hl); [lia|].
    exists cs. split; [exact E|]. split; [|exact Hl].
    rewrite Hc. simpl. rewrite <- H. apply firstn_all.
Qed.

Lemma custom_partition_from (positions : list Position) chunks : forall acc,
  acc + list_sum chunks <= length positions ->
  concat (map (fun p => firstn (snd p) (skipn (fst p) positions))
              (combine (acc :: cumsum_from acc chunks) chunks))
    = firstn (list_sum chunks) (skipn acc positions) /\
  map (@length Position) (map (fun p => firstn (snd p) (skipn (fst p) positions))
              (combine (acc :: cumsum_from acc chunks) chunks)) = chunks.
Proof.
  induction chunks as [|c r IH]; intros acc H; simpl; [split; reflexivity|].
  destruct (IH (acc + c)) as [H1 H2]; [simpl in H; lia|].
  destruct r as [|c' r'].
  - simpl. rewrite app_nil_r, Nat.add_0_r. split; [reflexivity|].
    rewrite firstn_length_le; [reflexivity|]. rewrite length_skipn. simpl in H. lia.
  - simpl in H1, H2 |- *. split.
    + rewrite H1. replace (acc + c) with (c + acc) by lia.
      rewrite <- skipn_skipn. apply firstn_skipn_add.
    + rewrite H2, firstn_length_le; [reflexivity|]. rewrite length_skipn. simpl in H. lia.
Qed.

(** [CustomScan.partition_args]: splitting the positions at the cumulative
    sums of the chunks gives blocks whose concatenation is the positions and
    whose lengths are the chunks. *)
Theorem custom_partition_args_blocks (positions : list Position) (chunks0 : list nat) :
  list_sum chunks0 = length positions ->
  concat (custom_partition_args positions chunks0) = positions /\
  map (@length Position) (custom_partition_args positions chunks0) = chunks0.
Proof.
  intro H. destruct (custom_partition_from positions chunks0 0) as [H1 H2]; [lia|].
  unfold custom_partition_args. split; [|exact H2].
  rewrite H1, H. apply firstn_all.
Qed.


Lemma combine_cumsum_nth c : forall acc k p,
  nth_error (combine (acc :: cumsum_from acc c) c) k = Some p ->
  fst p = acc + list_sum (firstn k c) /\ snd p = nth k c 0 /\ k < length c.
Proof.
  induction c as [|x r IH]; intros acc k p H; [destruct k; discriminate|].
  destruct k as [|k]; simpl in H.
  - injection H as <-. simpl. lia.
  - destruct (IH (acc + x) k p H) as (H1 & H2 & H3). simpl. lia.
Qed.

Lemma list_sum_firstn_S (c : list nat) k :
  k < length c -> list_sum (firstn (S k) c) = list_sum (firstn k c) + nth k c 0.
Proof.
  revert k. induction c as [|x r IH]; intros [|k] H; simpl in *; try lia.
  rewrite IH by lia. lia.
Qed.

Lemma length_cumsum_from c : forall acc, length (cumsum_from acc c) = length c.
Proof. induction c; intro; simpl; auto. Qed.

Lemma map_snd_combine {A B} (l1 : list A) (l2 : list B) :
  length l2 <= length l1 -> map snd (combine l1 l2) = l2.
Proof.
  revert l1. induction l2 as [|y l2 IH]; intros [|x l1] H; simpl in *; try lia; try reflexivity.
  rewrite IH by lia. reflexivity.
Qed.

Lemma grid_axis_blocks_spec st sa c :
  map gb_gpts (grid_axis_blocks st sa c) = c /\
  forall k b, nth_error (grid_axis_blocks st sa c) k = Some b ->
    (gb_start b == st + sa * inject_Z (Z.of_nat (list_sum (firstn k c))))%Q /\
    (gb_end b == st + sa * inject_Z (Z.of_nat (list_sum (firstn (S k) c))))%Q /\
    gb_endpoint b = false.
Proof.
  unfold grid_axis_blocks. split.
  - rewrite map_map. cbn [gb_gpts].
    transitivity (map snd (combine (0 :: cumsum_from 0 c) c)); [reflexivity|].
    apply map_snd_combine. simpl. rewrite length_cumsum_from. lia.
  - intros k b H. rewrite nth_error_map in H.
    destruct (nth_error (combine (0 :: cumsum_from 0 c) c) k) as [p|] eqn:E; [|discriminate].
    simpl in H. injection H as <-. cbn [gb_start gb_end gb_endpoint].
    destruct (combine_cumsum_nth c 0 k p E) as (H1 & H2 & H3).
    rewrite list_sum_firstn_S by exact H3.
    rewrite H1, <- H2. rewrite Nat.add_0_l.
    rewrite Nat2Z.inj_add, inject_Z_plus.
    split; [ring|]. split; [ring|reflexivity].
Qed.

(** [GridScan.partition_args]: the blocks of each axis have the chunks as gpts
    and are contiguous: block [k] starts at [start + sampling * sum of the
    first k chunks], ends where block [k+1] starts, and excludes its end. *)
Theorem grid_partition_args_contiguous check (st sa : Q * Q) (cx cy : list nat) bx by_ :
  grid_partition_args check st sa (cx, cy) = Ok (bx, by_) ->
  map gb_gpts bx = cx /\ map gb_gpts by_ = cy /\
  (forall k b, nth_error bx k = Some b ->
     (gb_start b == fst st + fst sa * inject_Z (Z.of_nat (list_sum (firstn k cx))))%Q /\
     (gb_end b == fst st + fst sa * inject_Z (Z.of_nat (list_sum (firstn (S k) cx))))%Q /\
     gb_endpoint b = false) /\
  (forall k b, nth_error by_ k = Some b ->
     (gb_start b == snd st + snd sa * inject_Z (Z.of_nat (list_sum (firstn k cy))))%Q /\
     (gb_end b == snd st + snd sa * inject_Z (Z.of_nat (list_sum (firstn (S k) cy))))%Q /\
     gb_endpoint b = false).
Proof.
  unfold grid_partition_args. destruct check as [[]|e]; simpl; [|discriminate].
  intro H. injection H as <- <-.
  destruct (grid_axis_blocks_spec (fst st) (fst sa) cx) as [Hx1 Hx2].
  destruct (grid_axis_blocks_spec (snd st) (snd sa) cy) as [Hy1 Hy2].
  split; [exact Hx1|]. split; [exact Hy1|]. split; [exact Hx2|exact Hy2].
Qed.


Section Expand.
Variable ax : list nat.
Let notin (i : nat) := negb (existsb (Nat.eqb i) ax).
Let cnt p n := length (filter notin (seq p n)).

Lemma expanded_shape_ok : forall n p src, cnt p n <= length src ->
  exists s, expanded_shape ax p n src = Ok s /\ length s = n /\
    (forall q, In q (combine (seq p n) s) -> existsb (Nat.eqb (fst q)) ax = true -> snd q = 1) /\
    map snd (filter (fun q => notin (fst q)) (combine (seq p n) s)) = firstn (cnt p n) src.
Proof.
  unfold cnt. induction n as [|n IH]; intros p src H; simpl.
  - exists []. repeat split; simpl; try tauto. 
  - unfold notin in *. simpl in H.
    destruct (existsb (Nat.eqb p) ax) eqn:E; simpl in H |- *.
    + destruct (IH (S p) src H) as (s & E1 & L & H1 & H2).
      rewrite E1. simpl. exists (1 :: s). split; [reflexivity|]. split; [simpl; lia|].
      split.
      * intros q [<-|Hq] Hm; [reflexivity|]. apply H1; assumption.
      * simpl. rewrite E. simpl. exact H2.
    + destruct src as [|d src]; simpl in H; [lia|].
      destruct (IH (S p) src ltac:(lia)) as (s & E1 & L & H1 & H2).
      rewrite E1. simpl. exists (d :: s). split; [reflexivity|]. split; [simpl; lia|].
      split.
      * intros q [<-|Hq] Hm; [simpl in Hm; congruence|]. apply H1; assumption.
      * simpl. rewrite E. simpl. rewrite H2. reflexivity.
Qed.

Lemma expanded_shape_short : forall n p src, length src < cnt p n ->
  expanded_shape ax p n src = Raise (BackendError "StopIteration").
Proof.
  unfold cnt. induction n as [|n IH]; intros p src H; simpl in *; [lia|].
  unfold notin in *.
  destruct (existsb (Nat.eqb p) ax) eqn:E; simpl in H.
  - rewrite IH by exact H. reflexivity.
  - destruct src as [|d src]; [reflexivity|]. simpl in H.
    rewrite IH by lia. reflexivity.
Qed.

End Expand.

Lemma filter_length_split {A} (f : A -> bool) l :
  length (filter f l) + length (filter (fun x => negb (f x)) l) = length l.
Proof. induction l as [|x l IH]; simpl; [reflexivity|]. destruct (f x); simpl; lia. Qed.

Lemma filter_mem_length ax out :
  (forall a, In a ax -> a < out) ->
  (NoDup ax -> length (filter (fun i => existsb (Nat.eqb i) ax) (seq 0 out)) = length ax) /\
  (~ NoDup ax -> length (filter (fun i => existsb (Nat.eqb i) ax) (seq 0 out)) < length ax).
Proof.
  intro Hlt.
  set (filt := filter (fun i => existsb (Nat.eqb i) ax) (seq 0 out)).
  assert (Hnd : NoDup filt) by (apply NoDup_filter, seq_NoDup).
  assert (Hi1 : incl filt ax).
  { intros i Hi. apply filter_In in Hi as [_ Hm].
    apply existsb_exists in Hm as (a & Ha & Heq). apply Nat.eqb_eq in Heq. subst. exact Ha. }
  split.
  - intro Hax. apply Nat.le_antisymm.
    + apply NoDup_incl_length; assumption.
    + apply NoDup_incl_length; [assumption|].
      intros a Ha. apply filter_In. split.
      * apply in_seq. specialize (Hlt a Ha). lia.
      * apply existsb_exists. exists a. split; [exact Ha|apply Nat.eqb_refl].
  - intro Hax. destruct (Nat.lt_ge_cases (length filt) (length ax)) as [|Hge]; [assumption|].
    exfalso. apply Hax. eapply NoDup_incl_NoDup; eassumption.
Qed.

Lemma mapM_length {A B} (f : A -> result B) l l' : mapM f l = Ok l' -> length l' = length l.
Proof.
  revert l'. induction l as [|x l IH]; intros l' H; simpl in H.
  - injection H as <-. reflexivity.
  - destruct (f x); [|discriminate]. simpl in H.
    destruct (mapM f l) eqn:E; [|discriminate]. simpl in H. injection H as <-.
    simpl. f_equal. apply IH. reflexivity.
Qed.

Lemma mapM_Forall {A B} (f : A -> result B) (P : B -> Prop) l l' :
  (forall x y, f x = Ok y -> P y) -> mapM f l = Ok l' -> Forall P l'.
Proof.
  intro Hf. revert l'. induction l as [|x l IH]; intros l' H; simpl in H.
  - injection H as <-. constructor.
  - destruct (f x) eqn:Ex; [|discriminate]. simpl in H.
    destruct (mapM f l) eqn:E; [|discriminate]. simpl in H. injection H as <-.
    constructor; [eapply Hf; eassumption|]. apply IH. reflexivity.
Qed.

Lemma normalize_axis_lt ndim a n : normalize_axis ndim a = Ok n -> n < ndim.
Proof.
  unfold normalize_axis. intro H.
  destruct (0 <=? (if (a <? 0)%Z then (a + Z.of_nat ndim)%Z else a))%Z eqn:E1; [|discriminate].
  destruct ((if (a <? 0)%Z then (a + Z.of_nat ndim)%Z else a) <? Z.of_nat ndim)%Z eqn:E2;
    [|discriminate].
  simpl in H. injection H as <-. apply Z.leb_le in E1. apply Z.ltb_lt in E2. lia.
Qed.

Lemma prod_split (f : nat -> bool) idx s : length idx = length s ->
  prod s = prod (map snd (filter (fun q => f (fst q)) (combine idx s))) *
           prod (map snd (filter (fun q => negb (f (fst q))) (combine idx s))).
Proof.
  revert s. induction idx as [|i idx IH]; intros [|d s] H; simpl in *; try lia.
  unfold prod in *. simpl.
  rewrite (IH s) by lia. destruct (f i); simpl; lia.
Qed.

Lemma prod_ones (l : list (nat * nat)) : (forall q, In q l -> snd q = 1) -> prod (map snd l) = 1.
Proof.
  induction l as [|q l IH]; intro H; simpl; [reflexivity|].
  unfold prod in *. simpl. rewrite H by (left; reflexivity). rewrite IH by (intros; apply H; right; assumption). lia.
Qed.

Lemma in_combine_seq_nth (s : list nat) i : i < length s -> In (i, nth i s 0) (combine (seq 0 (length s)) s).
Proof.
  intro H.
  assert (E : nth i (combine (seq 0 (length s)) s) (0, 0) = (i, nth i s 0)).
  { rewrite combine_nth by apply length_seq. rewrite seq_nth by exact H. reflexivity. }
  rewrite <- E. apply nth_In. rewrite length_combine, length_seq. lia.
Qed.

(** The module-level [expand_dims]: with distinct normalised axes the result
    has the same data, a 1 at each new axis and the old dimensions in order
    elsewhere; repeated axes exhaust the shape iterator. *)
Theorem expand_dims_nd_shape {V} (a : ndarray V) (axis : list Z) (ax : list nat) :
  mapM (normalize_axis (length axis + length (nd_shape a))) axis = Ok ax ->
  (NoDup ax ->
   exists b, expand_dims_nd a axis = Ok b /\
     nd_data b = nd_data a /\ nd_lazy b = nd_lazy a /\
     length (nd_shape b) = length axis + length (nd_shape a) /\
     (forall i, In i ax -> nth i (nd_shape b) 0 = 1) /\
     map snd (filter (fun q => negb (existsb (Nat.eqb (fst q)) ax))
                     (combine (seq 0 (length (nd_shape b))) (nd_shape b))) = nd_shape a) /\
  (~ NoDup ax -> expand_dims_nd a axis = Raise (BackendError "StopIteration")).
Proof.
  intro Hm.
  set (out := length axis + length (nd_shape a)) in *.
  assert (Hlen : length ax = length axis) by (eapply mapM_length; eassumption).
  assert (Hlt : forall i, In i ax -> i < out).
  { assert (HF : Forall (fun i => i < out) ax).
    { eapply mapM_Forall; [|exact Hm]. intros x y. apply normalize_axis_lt. }
    rewrite Forall_forall in HF. exact HF. }
  destruct (filter_mem_length ax out Hlt) as [Hnd Hdup].
  pose proof (filter_length_split (fun i => existsb (Nat.eqb i) ax) (seq 0 out)) as Hsp.
  rewrite length_seq in Hsp.
  unfold expand_dims_nd. fold out. rewrite Hm. cbn [bind].
  split.
  - intro HN. specialize (Hnd HN).
    destruct (expanded_shape_ok ax out 0 (nd_shape a)) as (s & Es & Ls & H1 & H2); [lia|].
    rewrite Es. cbn [bind].
    assert (Hp : prod s = prod (nd_shape a)).
    { rewrite (prod_split (fun i => existsb (Nat.eqb i) ax) (seq 0 out) s) by (rewrite length_seq; lia).
      rewrite prod_ones by (intros q Hq; apply filter_In in Hq as [Hq1 Hq2]; apply H1; assumption).
      rewrite H2. rewrite firstn_all2 by lia. lia. }
    rewrite Hp, Nat.eqb_refl. eexists. split; [reflexivity|]. cbn [nd_shape nd_data nd_lazy].
    split; [reflexivity|]. split; [reflexivity|]. split; [exact Ls|]. split.
    + intros i Hi. apply (H1 (i, nth i s 0)); [|simpl; apply existsb_exists; exists i; split; [exact Hi|apply Nat.eqb_refl]].
      rewrite <- Ls. apply in_combine_seq_nth. rewrite Ls. apply Hlt, Hi.
    + rewrite Ls, H2. apply firstn_all2. lia.
  - intro HN. specialize (Hdup HN).
    rewrite expanded_shape_short by lia. reflexivity.
Qed.


Lemma fst_filter_combine_seq (g : nat -> nat -> bool) (E : list nat) : forall a,
  map fst (filter (fun p => g (fst p) (snd p)) (combine (seq a (length E)) E)) =
  filter (fun i => g i (nth (i - a) E 0)) (seq a (length E)).
Proof.
  induction E as [|e E IH]; intro a; [reflexivity|].
  cbn [length seq combine filter map fst snd].
  rewrite Nat.sub_diag.
  assert (Hm : map fst (filter (fun p => g (fst p) (snd p)) (combine (seq (S a) (length E)) E)) =
               filter (fun i => g i (nth (i - S a) E 0)) (seq (S a) (length E))) by apply IH.
  assert (Hf : filter (fun i => g i (nth (i - S a) E 0)) (seq (S a) (length E)) =
               filter (fun i => g i (nth (i - a) (e :: E) 0)) (seq (S a) (length E))).
  { apply filter_ext_in. intros i Hi. apply in_seq in Hi.
    replace (i - a) with (S (i - S a)) by lia. reflexivity. }
  rewrite <- Hf. change (nth 0 (e :: E) 0) with e.
  destruct (g a e); cbn [map fst]; rewrite Hm; reflexivity.
Qed.

Lemma snd_filter_combine_seq (Q : nat -> bool) (f : nat -> bool) (E : list nat) : forall a,
  (forall j, j < length E -> Q (a + j) = f (nth j E 0)) ->
  map snd (filter (fun p => Q (fst p)) (combine (seq a (length E)) E)) = filter f E.
Proof.
  induction E as [|e E IH]; intros a H; simpl; [reflexivity|].
  pose proof (H 0 ltac:(simpl; lia)) as H0. rewrite Nat.add_0_r in H0. simpl in H0. rewrite H0.
  assert (IH' : map snd (filter (fun p => Q (fst p)) (combine (seq (S a) (length E)) E)) = filter f E).
  { apply IH. intros j Hj. replace (S a + j) with (a + S j) by lia. apply (H (S j)). simpl. lia. }
  destruct (f e); simpl; rewrite IH'; reflexivity.
Qed.

Lemma fst_filter_combine_seq_r {A} (P : nat -> bool) (f : nat -> bool) (E : list nat) (l : list A) : forall a,
  length l = length E ->
  (forall j, j < length E -> P (a + j) = f (nth j E 0)) ->
  map fst (filter (fun p => P (snd p)) (combine l (seq a (length E)))) =
  map fst (filter (fun p => f (snd p)) (combine l E)).
Proof.
  revert l. induction E as [|e E IH]; intros [|y l] a Hl H; simpl in *; try reflexivity; try lia.
  pose proof (H 0 ltac:(lia)) as H0. rewrite Nat.add_0_r in H0. simpl in H0. rewrite H0.
  assert (IH' : map fst (filter (fun p => P (snd p)) (combine l (seq (S a) (length E)))) =
                map fst (filter (fun p => f (snd p)) (combine l E))).
  { apply IH; [lia|]. intros j Hj. replace (S a + j) with (a + S j) by lia. apply (H (S j)). lia. }
  destruct (f e); simpl; rewrite IH'; reflexivity.
Qed.

Lemma existsb_nat_in i l : existsb (Nat.eqb i) l = true <-> In i l.
Proof.
  rewrite existsb_exists. split.
  - intros (j & Hj & E). apply Nat.eqb_eq in E. subst. exact Hj.
  - intro H. exists i. split; [exact H|apply Nat.eqb_refl].
Qed.

Lemma has_dup_nodup l : NoDup l -> has_dup l = false.
Proof.
  induction 1 as [|x l Hx Hl IH]; simpl; [reflexivity|].
  rewrite IH, orb_false_r. destruct (existsb (Nat.eqb x) l) eqn:E; [|reflexivity].
  apply existsb_nat_in in E. contradiction.
Qed.

Lemma existsb_zseq i L : i < L -> existsb (Z.eqb (Z.of_nat i)) (map Z.of_nat (seq 0 L)) = true.
Proof.
  intro H. apply existsb_exists. exists (Z.of_nat i). split; [|apply Z.eqb_refl].
  apply in_map, in_seq. lia.
Qed.

Lemma filter_true {A} (l : list A) : filter (fun _ => true) l = l.
Proof. induction l; simpl; f_equal; assumption. Qed.

Lemma combine_app {A B} (l1 l2 : list A) (s1 s2 : list B) :
  length l1 = length s1 -> combine (l1 ++ l2) (s1 ++ s2) = combine l1 s1 ++ combine l2 s2.
Proof.
  revert s1. induction l1 as [|x l1 IH]; intros [|y s1] H; simpl in *; try lia; [reflexivity|].
  rewrite IH by lia. reflexivity.
Qed.

(** [ArrayObject.squeeze] without axes: on a consistent object it succeeds,
    drops exactly the ensemble dimensions of size 1 together with their axes
    metadata, and keeps the base shape, class, metadata and laziness. *)
Theorem squeeze_none_removes_unit_ensemble_axes {V}
    (normalize_axes : list Z -> list nat -> result (list Z)) (x : ArrayObject V) :
  length (shape x) = length (ao_ensemble_axes_metadata x) + base_dims (ao_cls x) ->
  1 <= base_dims (ao_cls x) ->
  exists y, squeeze normalize_axes x None = Ok y /\
    shape y = filter (fun n => negb (n =? 1)) (ensemble_shape x) ++ base_shape x /\
    ao_ensemble_axes_metadata y =
      map fst (filter (fun p => negb (snd p =? 1))
                      (combine (ao_ensemble_axes_metadata x) (ensemble_shape x))) /\
    ao_cls y = ao_cls x /\ ao_metadata y = ao_metadata x /\ is_lazy y = is_lazy x.
Proof.
  intros Hc Hbd.
  set (bd := base_dims (ao_cls x)) in *.
  set (L := length (shape x)) in *.
  set (m := L - bd).
  assert (Hbd0 : (bd =? 0) = false) by (apply Nat.eqb_neq; lia).
  assert (HE : ensemble_shape x = firstn m (shape x)) by (unfold ensemble_shape; fold bd; rewrite Hbd0; reflexivity).
  assert (HB : base_shape x = skipn m (shape x)) by (unfold base_shape; fold bd; rewrite Hbd0; reflexivity).
  set (E := firstn m (shape x)) in *.
  set (B := skipn m (shape x)) in *.
  assert (HLE : length E = m) by (unfold E; rewrite firstn_length_le; unfold m; lia).
  assert (HLB : length B = bd) by (unfold B; rewrite length_skipn; unfold m, L; lia).
  assert (Hsh : shape x = E ++ B) by (symmetry; apply firstn_skipn).
  assert (Heam : length (ao_ensemble_axes_metadata x) = m) by (unfold m; lia).
  unfold squeeze. rewrite HB, HLB, Hbd0.
  change (nd_shape (ao_array x)) with (shape x). fold L.
  replace (L <? bd) with false by (symmetry; apply Nat.ltb_ge; lia).
  cbn [bind]. fold m. fold E. rewrite HE.
  set (g := fun i n => (n =? 1) && existsb (Z.eqb (Z.of_nat i)) (map Z.of_nat (seq 0 L))).
  set (S := map fst (filter (fun p => (snd p =? 1) && existsb (Z.eqb (Z.of_nat (fst p))) (map Z.of_nat (seq 0 L)))
                            (combine (seq 0 (length E)) E))).
  assert (HS : S = filter (fun i => g i (nth (i - 0) E 0)) (seq 0 (length E))).
  { unfold S. rewrite <- (fst_filter_combine_seq g E 0). reflexivity. }
  assert (HmemS : forall i, In i S <-> i < m /\ nth i E 0 = 1).
  { intro i. rewrite HS, filter_In, in_seq, HLE. unfold g. rewrite Nat.sub_0_r.
    split.
    - intros [H1 H2]. apply andb_prop in H2 as [H2 _]. apply Nat.eqb_eq in H2. lia.
    - intros [H1 H2]. split; [lia|]. rewrite H2, existsb_zseq by (unfold m in H1; lia). reflexivity. }
  assert (HmemS' : forall i, existsb (Nat.eqb i) S = (i <? m) && (nth i E 0 =? 1)).
  { intro i. destruct (existsb (Nat.eqb i) S) eqn:Ei.
    - apply existsb_nat_in, HmemS in Ei as [H1 H2]. rewrite H2. apply Nat.ltb_lt in H1. rewrite H1. reflexivity.
    - symmetry. apply not_true_iff_false. intro Hc'. apply andb_prop in Hc' as [H1 H2].
      apply Nat.ltb_lt in H1. apply Nat.eqb_eq in H2.
      assert (In i S) by (apply HmemS; split; assumption).
      apply existsb_nat_in in H. congruence. }
  unfold np_squeeze. change (nd_shape (ao_array x)) with (shape x). fold L.
  replace (existsb (fun i => L <=? i) S) with false.
  2:{ symmetry. apply not_true_iff_false. intro Hx. apply existsb_exists in Hx as (i & Hi & Hle).
      apply HmemS in Hi as [Hi _]. apply Nat.leb_le in Hle. unfold m in Hi. lia. }
  rewrite has_dup_nodup.
  2:{ rewrite HS. apply NoDup_filter, seq_NoDup. }
  replace (existsb (fun i => negb (nth i (shape x) 0 =? 1)) S) with false.
  2:{ symmetry. apply not_true_iff_false. intro Hx. apply existsb_exists in Hx as (i & Hi & Hn).
      apply HmemS in Hi as [Hi Hi1]. rewrite Hsh, app_nth1 in Hn by lia. rewrite Hi1 in Hn. discriminate. }
  eexists. split; [reflexivity|]. unfold shape at 1, is_lazy. cbn [ao_array nd_shape nd_lazy ao_cls ao_metadata ao_ensemble_axes_metadata].
  split; [|split; [|split; [reflexivity|split; reflexivity]]].
  - assert (HL : L = length E + length B) by (unfold L; rewrite Hsh; apply length_app).
    rewrite HL, seq_app, Hsh, combine_app by (apply length_seq).
    rewrite filter_app, map_app. f_equal.
    + apply (snd_filter_combine_seq (fun i => negb (existsb (Nat.eqb i) S))).
      intros j Hj. simpl. rewrite HmemS'.
      replace (j <? m) with true by (symmetry; apply Nat.ltb_lt; lia). reflexivity.
    + rewrite Nat.add_0_l. transitivity (filter (fun _ => true) B); [|apply filter_true].
      apply (snd_filter_combine_seq (fun i => negb (existsb (Nat.eqb i) S))).
      intros j Hj. rewrite HmemS'.
      replace (length E + j <? m) with false by (symmetry; apply Nat.ltb_ge; lia). reflexivity.
  - rewrite Heam, <- HLE.
    apply (fst_filter_combine_seq_r (fun i => negb (existsb (Nat.eqb i) S)) (fun n => negb (n =? 1)));
      [lia|].
    intros j Hj. simpl. rewrite HmemS'.
    replace (j <? m) with true by (symmetry; apply Nat.ltb_lt; lia). reflexivity.
Qed.


Lemma list_insert_length {A} i (x : A) l : length (list_insert i x l) = S (length l).
Proof. revert i. induction l as [|y l IH]; intros [|i]; simpl; auto. Qed.

Lemma py_list_insert_length {A} i (x : A) l : length (py_list_insert i x l) = S (length l).
Proof. apply list_insert_length. Qed.

Lemma fold_insert_length {A} (ps : list (Z * A)) : forall l,
  length (fold_left (fun acc p => py_list_insert (fst p) (snd p) acc) ps l) = length ps + length l.
Proof.
  induction ps as [|p ps IH]; intro l; simpl; [reflexivity|].
  rewrite IH, py_list_insert_length. lia.
Qed.

Lemma expanded_shape_length ax : forall n p src s,
  expanded_shape ax p n src = Ok s -> length s = n.
Proof.
  induction n as [|n IH]; intros p src s H; simpl in H.
  - injection H as <-. reflexivity.
  - destruct (existsb (Nat.eqb p) ax).
    + destruct (expanded_shape ax (S p) n src) eqn:E; [|discriminate].
      simpl in H. injection H as <-. simpl. f_equal. eapply IH; eassumption.
    + destruct src as [|d src]; [discriminate|].
      destruct (expanded_shape ax (S p) n src) eqn:E; [|discriminate].
      simpl in H. injection H as <-. simpl. f_equal. eapply IH; eassumption.
Qed.

Lemma expand_dims_nd_rank {V} (a b : ndarray V) axis :
  expand_dims_nd a axis = Ok b -> length (nd_shape b) = length axis + length (nd_shape a).
Proof.
  unfold expand_dims_nd. intro H.
  destruct (mapM _ axis) as [ax|e]; [|discriminate]. cbn [bind] in H.
  destruct (expanded_shape _ _ _ _) as [s|e] eqn:Es; [|discriminate]. cbn [bind] in H.
  destruct (_ =? _); [|discriminate]. injection H as <-. simpl.
  eapply expanded_shape_length; eassumption.
Qed.

(** [ArrayObject.expand_dims]: on success the class is kept and the array and
    the ensemble axes metadata both grow by the number of axes, so a
    consistent object stays consistent. *)
Theorem expand_dims_keeps_axes_consistent {V}
    (normalize_axes : list Z -> list nat -> result (list Z))
    (Hnorm : forall a s r, normalize_axes a s = Ok r -> length r = length a)
    (x y : ArrayObject V) (axis : option (list Z)) (axis_metadata : option (list AxisMetadata)) :
  let axis' := match axis with None => [0%Z] | Some a => a end in
  length (shape x) = length (ao_ensemble_axes_metadata x) + base_dims (ao_cls x) ->
  (forall m, axis_metadata = Some m -> length axis' <= length m) ->
  expand_dims normalize_axes x axis axis_metadata = Ok y ->
  ao_cls y = ao_cls x /\
  length (shape y) = length (shape x) + length axis' /\
  length (ao_ensemble_axes_metadata y) = length (ao_ensemble_axes_metadata x) + length axis' /\
  length (shape y) = length (ao_ensemble_axes_metadata y) + base_dims (ao_cls y).
Proof.
  intros axis' Hc Hm H. unfold expand_dims in H. fold axis' in H. clearbody axis'.
  destruct (normalize_axes axis' (shape x)) as [ax|e] eqn:En; [|discriminate].
  cbn [bind] in H. apply Hnorm in En.
  destruct (existsb _ ax); [discriminate|].
  destruct (expand_dims_nd (ao_array x) ax) as [arr|e] eqn:Ea; [|discriminate].
  cbn [bind] in H. injection H as <-.
  apply expand_dims_nd_rank in Ea.
  unfold shape in *. cbn [ao_cls ao_array ao_ensemble_axes_metadata].
  rewrite fold_insert_length, length_combine.
  assert (Hmin : Nat.min (length ax) (length (match axis_metadata with
                   | Some m => m | None => repeat UnknownAxis (length axis') end)) = length axis').
  { destruct axis_metadata as [m|].
    - specialize (Hm m eq_refl). lia.
    - rewrite repeat_length. lia. }
  rewrite Hmin. split; [reflexivity|]. repeat split; lia.
Qed.


Lemma length_flat_map_cons {A} (xs : list (list A)) (l : list A) :
  length (flat_map (fun i => map (cons i) xs) l) = length l * length xs.
Proof.
  induction l as [|i l IH]; simpl; [reflexivity|].
  rewrite length_app, length_map, IH. reflexivity.
Qed.

Lemma all_indices_length s : length (all_indices s) = prod s.
Proof.
  induction s as [|n s IH]; simpl; [reflexivity|].
  rewrite length_flat_map_cons, length_seq, IH. reflexivity.
Qed.

Lemma all_indices_bounds s idx : In idx (all_indices s) -> Forall2 lt idx s.
Proof.
  revert idx. induction s as [|n s IH]; intros idx H; simpl in H.
  - destruct H as [<-|[]]. constructor.
  - apply in_flat_map in H as (i & Hi & Hm). apply in_map_iff in Hm as (r & <- & Hr).
    apply in_seq in Hi. constructor; [lia|]. apply IH, Hr.
Qed.

Lemma index_plan_ints idx s B : Forall2 lt idx s ->
  index_plan (map (fun k => IInt (Z.of_nat k)) idx) (s ++ B) =
  Ok (map SFix idx ++ map (fun n => SRange (seq 0 n)) B).
Proof.
  induction 1 as [|i n idx s Hi HF IH]; simpl; [reflexivity|].
  replace (Z.of_nat i <? 0)%Z with false by (symmetry; apply Z.ltb_ge; lia).
  replace ((0 <=? Z.of_nat i)%Z && (Z.of_nat i <? Z.of_nat n)%Z) with true
    by (symmetry; apply andb_true_intro; split; [apply Z.leb_le|apply Z.ltb_lt]; lia).
  rewrite IH. simpl. rewrite Nat2Z.id. reflexivity.
Qed.

Lemma plan_shape_fix_range idx B :
  plan_shape (map SFix idx ++ map (fun n => SRange (seq 0 n)) B) = B.
Proof.
  induction idx as [|i idx IH]; simpl.
  - induction B as [|n B IHB]; simpl; [reflexivity|]. rewrite length_seq, IHB. reflexivity.
  - exact IH.
Qed.

Lemma fold_items_ints expanded idx : forall j md am r,
  fold_items expanded j (map (fun k => IInt (Z.of_nat k)) idx) md am = Ok r -> snd r = am.
Proof.
  induction idx as [|k idx IH]; intros j md am r H; simpl in H.
  - injection H as <-. reflexivity.
  - destruct (nth_error expanded j); [|discriminate]. cbn [of_option bind] in H.
    destruct (item_metadata _ _); [|discriminate]. cbn [bind] in H.
    eapply IH. exact H.
Qed.

Lemma fold_insert_none_ints {A} (idx : list nat) (acc : list A) (d : A) :
  fold_left (fun acc p => if is_none (snd p) then list_insert (fst p) d acc else acc)
            (combine (seq 0 (length (map (fun k => IInt (Z.of_nat k)) idx)))
                     (map (fun k => IInt (Z.of_nat k)) idx)) acc = acc.
Proof.
  generalize 0. induction idx as [|k idx IH]; intro j; simpl; [reflexivity|]. apply IH.
Qed.

(** [ArrayObject.generate_ensemble]: one member per index of the ensemble
    shape, in [np.ndindex] order; without [keepdims] every member that is
    returned has the base shape and no ensemble axes. *)
Theorem generate_ensemble_members {V} (x : ArrayObject V) (keepdims : bool) :
  length (generate_ensemble x keepdims) = prod (ensemble_shape x) /\
  map fst (generate_ensemble x keepdims) = all_indices (ensemble_shape x) /\
  (length (shape x) = length (ao_ensemble_axes_metadata x) + base_dims (ao_cls x) ->
   1 <= base_dims (ao_cls x) ->
   forall i y, In (i, Ok y) (generate_ensemble x false) ->
     shape y = base_shape x /\ ao_ensemble_axes_metadata y = [] /\ ao_cls y = ao_cls x).
Proof.
  split; [unfold generate_ensemble; rewrite length_map; apply all_indices_length|].
  split; [unfold generate_ensemble; rewrite map_map; apply map_id|].
  intros Hc Hbd i y Hin.
  unfold generate_ensemble in Hin. apply in_map_iff in Hin as (i' & Eq & Hi').
  injection Eq as <- Hy.
  set (bd := base_dims (ao_cls x)) in *.
  assert (Hbd0 : (bd =? 0) = false) by (apply Nat.eqb_neq; lia).
  set (m := length (shape x) - bd).
  assert (HE : ensemble_shape x = firstn m (shape x)) by (unfold ensemble_shape; fold bd; rewrite Hbd0; reflexivity).
  assert (HB : base_shape x = skipn m (shape x)) by (unfold base_shape; fold bd; rewrite Hbd0; reflexivity).
  assert (Hsh : shape x = ensemble_shape x ++ base_shape x) by (rewrite HE, HB; symmetry; apply firstn_skipn).
  assert (HLE : length (ensemble_shape x) = length (ao_ensemble_axes_metadata x))
    by (rewrite HE, firstn_length_le; unfold m; lia).
  pose proof (all_indices_bounds _ _ Hi') as HF.
  assert (Hli : length i' = length (ensemble_shape x)) by (eapply Forall2_length; exact HF).
  unfold get_items in Hy. cbn [bind] in Hy.
  set (its := map (fun k => IInt (Z.of_nat k)) i') in *.
  replace (existsb is_ellipsis its) with false in Hy
    by (unfold its; clear; induction i'; simpl; auto).
  replace (length (filter (fun it => negb (is_none it)) its)) with (length i') in Hy
    by (unfold its; clear; induction i'; simpl; auto).
  rewrite Hli in Hy.
  replace (length (ensemble_shape x) <? length (ensemble_shape x) + 1) with true in Hy
    by (symmetry; apply Nat.ltb_lt; lia).
  unfold its in Hy. rewrite fold_insert_none_ints in Hy. fold its in Hy.
  destruct (fold_items _ 0 its [] []) as [[md am]|e] eqn:Ef; [|discriminate].
  apply fold_items_ints in Ef. simpl in Ef. subst am. cbn [bind] in Hy.
  unfold np_getitem in Hy. change (nd_shape (ao_array x)) with (shape x) in Hy.
  rewrite Hsh in Hy. unfold its in Hy. rewrite index_plan_ints in Hy by exact HF.
  cbn [bind] in Hy.
  destruct (of_option _ _) as [vals|e]; [|discriminate]. cbn [bind] in Hy.
  injection Hy as <-. unfold shape at 1. cbn [ao_array nd_shape ao_ensemble_axes_metadata ao_cls].
  rewrite plan_shape_fix_range. split; [reflexivity|]. split; [|reflexivity].
  rewrite length_map, Hli, HLE. apply skipn_all.
Qed.






Lemma dict_set_app d1 d2 k v :
  dict_set (d1 ++ d2) k v =
  if existsb (String.eqb k) (map fst d1) then dict_set d1 k v ++ d2 else d1 ++ dict_set d2 k v.
Proof.
  induction d1 as [|[k0 v0] r IH]; simpl; [reflexivity|].
  destruct (String.eqb k k0); simpl; [reflexivity|].
  rewrite IH. destruct (existsb (String.eqb k) (map fst r)); reflexivity.
Qed.

Lemma existsb_key_in k d : existsb (String.eqb k) d = true <-> In k d.
Proof.
  rewrite existsb_exists. split.
  - intros (j & Hj & E). apply String.eqb_eq in E. subst. exact Hj.
  - intro H. exists k. split; [exact H|apply String.eqb_refl].
Qed.

Lemma keys_dict_set d k v k' : In k' (map fst (dict_set d k v)) -> k' = k \/ In k' (map fst d).
Proof.
  induction d as [|[k0 v0] r IH]; simpl.
  - intros [<-|[]]. left; reflexivity.
  - destruct (String.eqb k k0); simpl.
    + intros [<-|H]; right; [left; reflexivity|right; exact H].
    + intros [<-|H]; [right; left; reflexivity|]. destruct (IH H) as [|]; [left|right; right]; assumption.
Qed.

Lemma dict_remove_app d1 d2 k : dict_remove (d1 ++ d2) k = dict_remove d1 k ++ dict_remove d2 k.
Proof.
  induction d1 as [|[k0 v0] r IH]; simpl; [reflexivity|].
  destruct (String.eqb k k0); simpl; rewrite IH; reflexivity.
Qed.





Lemma mapM_decode_axes (enc : AxisMetadata -> Json) (dec : Json -> result AxisMetadata)
    (Hrt : forall a, dec (enc a) = Ok a) (f : nat -> string) (axes : list AxisMetadata) : forall j,
  mapM (fun kv => dec (snd kv)) (map (fun p => (f (fst p), enc (snd p))) (combine (seq j (length axes)) axes))
  = Ok axes.
Proof.
  induction axes as [|a axes IH]; intro j; simpl; [reflexivity|].
  rewrite Hrt. cbn [bind]. rewrite IH. reflexivity.
Qed.

(** [_metadata_to_dict] then [_metadata_from_json_string]'s decoding gives back
    the class, all the axes metadata and the metadata with [data_origin]
    added, when the axis codec round-trips and the class is registered. *)
Theorem metadata_dict_roundtrip {V} (axis_to_dict : AxisMetadata -> Json)
    (axis_from_dict : Json -> result AxisMetadata) (version : string)
    (base_axes_metadata : ArrayObject V -> list AxisMetadata) (classes : list ArrayClass)
    (x : ArrayObject V) :
  (forall a, axis_from_dict (axis_to_dict a) = Ok a) ->
  find_class classes (cls_name (ao_cls x)) = Some (ao_cls x) ->
  ~ In "axes"%string (map fst (ao_metadata x)) ->
  ~ In "type"%string (map fst (ao_metadata x)) ->
  _metadata_from_dict axis_from_dict classes
    (JObj (_metadata_to_dict axis_to_dict version base_axes_metadata x)) =
  Ok (ao_cls x, ao_ensemble_axes_metadata x ++ base_axes_metadata x,
      dict_set (ao_metadata x) "data_origin" (JStr ("abTEM_v" ++ version))).
Proof.
  intros Hrt Hcls Ha Ht.
  unfold _metadata_to_dict.
  set (axes := ao_ensemble_axes_metadata x ++ base_axes_metadata x).
  set (A := JObj (map (fun p => ("axis_" ++ str_of_nat (fst p), axis_to_dict (snd p)))%string
                      (combine (seq 0 (length axes)) axes))).
  set (O := JStr ("abTEM_v" ++ version)).
  set (md0 := ao_metadata x) in *.
  set (M := dict_set md0 "data_origin" O).
  rewrite (dict_set_fresh md0 "axes" A Ha).
  set (md2 := dict_set (md0 ++ [("axes"%string, A)]) "data_origin" O).
  assert (H2 : dict_remove md2 "axes" = M /\ dict_get md2 "axes" = Some A /\
               ~ In "type"%string (map fst md2)).
  { unfold md2. rewrite dict_set_app.
    destruct (existsb (String.eqb "data_origin") (map fst md0)) eqn:Ed.
    - assert (HM : ~ In "axes"%string (map fst M)).
      { intro H. apply keys_dict_set in H as [H|H]; [discriminate|contradiction]. }
      rewrite dict_remove_app, dict_remove_absent by exact HM. simpl.
      rewrite app_nil_r. split; [reflexivity|]. split.
      + rewrite dict_get_app, dict_get_notin by exact HM. reflexivity.
      + rewrite map_app. intro H. apply in_app_or in H as [H|[H|[]]]; [|discriminate].
        apply keys_dict_set in H as [H|H]; [discriminate|contradiction].
    - simpl. rewrite dict_remove_app, dict_remove_absent by exact Ha. simpl.
      assert (n : ~ In "data_origin"%string (map fst md0))
        by (rewrite <- existsb_key_in; congruence).
      unfold M. rewrite dict_set_fresh by exact n. split; [reflexivity|]. split.
      + rewrite dict_get_app, dict_get_notin by exact Ha. reflexivity.
      + rewrite map_app. intro H. apply in_app_or in H as [H|[H|[H|[]]]]; try discriminate. contradiction. }
  destruct H2 as (Hr & Hg & Hnt).
  rewrite dict_set_fresh by exact Hnt.
  unfold _metadata_from_dict.
  rewrite dict_get_app, dict_get_notin by exact Hnt. cbn [dict_get]. rewrite String.eqb_refl.
  cbn [of_option bind]. rewrite Hcls. cbn [of_option bind].
  rewrite dict_remove_app, dict_remove_absent by exact Hnt.
  simpl (dict_remove [("type"%string, _)] "type"). rewrite app_nil_r.
  rewrite Hg. cbn [of_option bind]. unfold A.
  rewrite (mapM_decode_axes axis_to_dict axis_from_dict Hrt (fun n => "axis_" ++ str_of_nat n)%string axes 0).
  cbn [bind]. rewrite Hr. reflexivity.
Qed.


Lemma nth_error_combine {A B} (l1 : list A) (l2 : list B) j a b :
  nth_error l1 j = Some a -> nth_error l2 j = Some b -> nth_error (combine l1 l2) j = Some (a, b).
Proof.
  revert l2 j. induction l1 as [|x l1 IH]; intros [|y l2] [|j] H1 H2; simpl in *; try discriminate.
  - congruence.
  - apply IH; assumption.
Qed.

Lemma nth_error_set_middle {A} (l : list A) j (v : A) :
  j < length l -> nth_error (firstn j l ++ v :: skipn (S j) l) j = Some v.
Proof.
  intro H. rewrite nth_error_app2; rewrite firstn_length_le by lia; [|lia].
  rewrite Nat.sub_diag. reflexivity.
Qed.

(** [ArrayObject.set_ensemble_axes_metadata]: an index out of range raises
    [IndexError] and leaves the object; otherwise the entry is replaced in
    place, and a wrong-sized ordinal axis raises [RuntimeError] after the
    object has already been changed. *)
Theorem set_ensemble_axes_metadata_in_place {V}
    (base_axes_metadata : ArrayObject V -> list AxisMetadata)
    (x : ArrayObject V) (am : AxisMetadata) (axis : Z) :
  let eam := ao_ensemble_axes_metadata x in
  let n := Z.of_nat (length eam) in
  let j := if (axis <? 0)%Z then (axis + n)%Z else axis in
  ((j < 0 \/ n <= j)%Z -> set_ensemble_axes_metadata base_axes_metadata x am axis = (x, Raise IndexError)) /\
  ((0 <= j < n)%Z ->
   let r := set_ensemble_axes_metadata base_axes_metadata x am axis in
   let x' := fst r in
   ao_ensemble_axes_metadata x' = firstn (Z.to_nat j) eam ++ am :: skipn (S (Z.to_nat j)) eam /\
   nth_error (ao_ensemble_axes_metadata x') (Z.to_nat j) = Some am /\
   ao_cls x' = ao_cls x /\ ao_array x' = ao_array x /\
   ao_metadata x' = ao_metadata x /\ ao_kwargs x' = ao_kwargs x /\
   (forall y, snd r = Ok y -> y = x') /\
   (forall l vs, am = OrdinalAxis l vs ->
      Z.to_nat j < length (shape x) -> length vs <> nth (Z.to_nat j) (shape x) 0 ->
      snd r = Raise (RuntimeError "number of values for ordinal axis does not match size of dimension"))).
Proof.
  intros eam n j. unfold set_ensemble_axes_metadata, py_list_set. fold eam. fold n. fold j.
  split.
  - intro H. replace ((0 <=? j)%Z && (j <? n)%Z) with false; [reflexivity|].
    symmetry. destruct H as [H|H].
    + apply andb_false_intro1. apply Z.leb_gt. lia.
    + apply andb_false_intro2. apply Z.ltb_ge. lia.
  - intro H. replace ((0 <=? j)%Z && (j <? n)%Z) with true
      by (symmetry; apply andb_true_intro; split; [apply Z.leb_le|apply Z.ltb_lt]; lia).
    cbv zeta. cbn [fst snd ao_ensemble_axes_metadata ao_cls ao_array ao_metadata ao_kwargs].
    assert (Hj : Z.to_nat j < length eam) by lia.
    split; [reflexivity|]. split; [apply nth_error_set_middle; exact Hj|].
    split; [reflexivity|]. split; [reflexivity|]. split; [reflexivity|]. split; [reflexivity|].
    split.
    + intros y Hy. unfold _check_axes_metadata in Hy.
      destruct (negb _); [discriminate|]. destruct (existsb _ _); [discriminate|].
      cbn [bind] in Hy. injection Hy as <-. reflexivity.
    + intros l vs -> Hs Hv. unfold _check_axes_metadata.
      rewrite Nat.eqb_refl. cbn [negb].
      set (eam' := firstn (Z.to_nat j) eam ++ OrdinalAxis l vs :: skipn (S (Z.to_nat j)) eam).
      change (shape (mk_obj (ao_cls x) (ao_array x) eam' (ao_metadata x) (ao_kwargs x))) with (shape x). cbn [ao_ensemble_axes_metadata].
      replace (existsb _ _) with true; [reflexivity|]. symmetry.
      apply existsb_exists. exists (nth (Z.to_nat j) (shape x) 0, OrdinalAxis l vs).
      split.
      * apply nth_error_In with (Z.to_nat j). apply nth_error_combine.
        -- apply nth_error_nth'. exact Hs.
        -- rewrite nth_error_app1 by (unfold eam'; rewrite length_app; simpl; rewrite firstn_length_le; lia).
           apply nth_error_set_middle. exact Hj.
      * simpl. apply negb_true_iff. apply Nat.eqb_neq. exact Hv.
Qed.

Lemma np_reduce_keepdims_rank {V} (xp : ArrayModule V) fn (a b : ndarray V) axes :
  np_reduce xp fn a axes true = Ok b -> length (nd_shape b) = length (nd_shape a) /\ nd_lazy b = nd_lazy a.
Proof.
  unfold np_reduce. intro H.
  destruct (validate_axes _ _) as [ax|e]; [|discriminate]. cbn [bind] in H.
  destruct (mapM _ _) as [vals|e]; [|discriminate]. cbn [bind] in H.
  injection H as <-. cbn [nd_shape nd_lazy]. rewrite length_map, length_combine, length_seq.
  split; [lia|reflexivity].
Qed.

(** [ArrayObject._reduction] with [keepdims] and explicit axes: any success is
    an object of the same rank, ensemble axes metadata, class, metadata and
    laziness. *)
Theorem reduction_keepdims_keeps_axes {V} (xp : ArrayModule V) (x : ArrayObject V)
    (fn : string) (axes : list Z) (r : Reduced V) :
  _reduction xp x fn (Some axes) true = Ok r ->
  exists y, r = RObject y /\
    length (shape y) = length (shape x) /\
    ao_ensemble_axes_metadata y = ao_ensemble_axes_metadata x /\
    ao_cls y = ao_cls x /\ ao_metadata y = ao_metadata x /\ is_lazy y = is_lazy x.
Proof.
  unfold _reduction. intro H.
  destruct (mapM _ axes) as [axes'|e]; [|discriminate]. cbn [bind] in H.
  destruct (_is_base_axis x axes'); [discriminate|].
  destruct (np_reduce xp fn (ao_array x) axes' true) as [arr|e] eqn:E; [|discriminate].
  cbn [bind] in H. injection H as <-.
  apply np_reduce_keepdims_rank in E as [E1 E2].
  eexists. split; [reflexivity|]. unfold shape, is_lazy, with_array_axes. cbn.
  split; [exact E1|]. split; [reflexivity|]. split; [reflexivity|]. split; [reflexivity|exact E2].
Qed.




Lemma skipn_list_insert {A} k (x : A) : forall m l, k <= m -> m <= length l ->
  skipn (S m) (list_insert k x l) = skipn m l.
Proof.
  induction k as [|k IH]; intros m l Hk Hm; simpl.
  - destruct l; reflexivity.
  - destruct l as [|y l]; simpl in Hm; [lia|].
    destruct m as [|m]; [lia|]. simpl. apply IH; lia.
Qed.

(** [stack]: stacking [n] consistent objects inserts an ensemble dimension of
    size [n] at [axis] with its axis metadata, keeps the base shape and the
    class, and gives a consistent object. *)
Theorem stack_inserts_ensemble_axis {V} (a0 : ArrayObject V) (rest : list (ArrayObject V))
    (sam : StackAxisMetadata) (axis : Z) (y : ArrayObject V) :
  length (shape a0) = length (ao_ensemble_axes_metadata a0) + base_dims (ao_cls a0) ->
  1 <= base_dims (ao_cls a0) ->
  stack (a0 :: rest) sam axis = Ok y ->
  let k := Z.to_nat axis in
  (0 <= axis <= Z.of_nat (length (ensemble_shape a0)))%Z /\
  shape y = list_insert k (S (length rest)) (shape a0) /\
  ao_ensemble_axes_metadata y =
    list_insert k (match sam with
                   | SANone => UnknownAxis
                   | SAStrings l => OrdinalAxis "" l
                   | SAAxis a => a
                   end) (ao_ensemble_axes_metadata a0) /\
  ao_cls y = ao_cls a0 /\
  base_shape y = base_shape a0 /\
  length (shape y) = length (ao_ensemble_axes_metadata y) + base_dims (ao_cls y).
Proof.
  intros Hc Hbd H k.
  set (bd := base_dims (ao_cls a0)) in *.
  assert (Hbd0 : (bd =? 0) = false) by (apply Nat.eqb_neq; lia).
  assert (HLE : length (ensemble_shape a0) = length (ao_ensemble_axes_metadata a0)).
  { unfold ensemble_shape. fold bd. rewrite Hbd0, firstn_length_le; lia. }
  unfold stack in H. cbn [hd_error of_option bind] in H.
  destruct (axis <=? Z.of_nat (length (ensemble_shape a0)))%Z eqn:E1; [|discriminate].
  destruct (0 <=? axis)%Z eqn:E2; [|discriminate]. cbn [negb] in H.
  apply Z.leb_le in E1. apply Z.leb_le in E2.
  destruct sam as [|l|a]; cbn [bind] in H;
    [| destruct (forallb is_jstr l); [|discriminate]; cbn [bind] in H |];
    unfold _stack in H; cbn [hd_error of_option bind map] in H;
    unfold np_stack in H;
    (destruct (negb _); [discriminate|]);
    (destruct (_ <? _); [discriminate|]);
    (destruct (of_option _ _) as [vals|e]; [|discriminate]);
    cbn [bind] in H; injection H as <-;
    unfold shape, base_shape; cbn [ao_array ao_cls ao_ensemble_axes_metadata nd_shape];
    fold bd; fold (shape a0); rewrite Hbd0, length_map;
    (split; [lia|]); (split; [reflexivity|]); (split; [reflexivity|]); (split; [reflexivity|]);
    rewrite !list_insert_length;
    (split; [|lia]);
    unfold shape; cbn [ao_array nd_shape]; fold (shape a0); rewrite list_insert_length;
    rewrite Nat.sub_succ_l by lia; apply skipn_list_insert; lia.
Qed.

(** ** Witnesses on sample inputs *)

Lemma py_normalize_axes_length (a : list Z) (shp : list nat) (r : list Z) :
  py_normalize_axes a shp = Ok r -> length r = length a.
Proof. unfold py_normalize_axes. intro H. injection H as <-. apply length_map. Qed.

Lemma expand_dims_nd_shape_witness :
  exists b, expand_dims_nd (ao_array (x234 false)) [0%Z; (-1)%Z] = Ok b /\
            length (nd_shape b) = 5 /\ nd_data b = map Z.of_nat (seq 0 24).
Proof.
  destruct (proj1 (expand_dims_nd_shape (ao_array (x234 false)) [0%Z; (-1)%Z] [0; 4] eq_refl)
                  ltac:(repeat constructor; simpl; intuition discriminate))
    as (b & E & D & _ & L & _).
  exists b. split; [exact E|]. split; [exact L|exact D].
Defined.

Lemma expand_dims_keeps_axes_consistent_witness :
  exists y, expand_dims py_normalize_axes (x234 false) (Some [1%Z]) None = Ok y /\
            length (shape y) = length (ao_ensemble_axes_metadata y) + base_dims (ao_cls y).
Proof.
  eexists. split; [reflexivity|].
  refine (proj2 (proj2 (proj2 (expand_dims_keeps_axes_consistent py_normalize_axes
            py_normalize_axes_length (x234 false) _ (Some [1%Z]) None _ _ _))));
    [reflexivity | intros m Hm; discriminate | reflexivity].
Defined.

Lemma squeeze_none_removes_unit_ensemble_axes_witness :
  exists y, squeeze py_normalize_axes x134 None = Ok y /\ shape y = [3; 4] /\
            ao_ensemble_axes_metadata y = [axis_b].
Proof.
  destruct (squeeze_none_removes_unit_ensemble_axes py_normalize_axes x134 eq_refl (le_n 1))
    as (y & E & S & M & _).
  exists y. split; [exact E|]. split; [rewrite S; reflexivity|rewrite M; reflexivity].
Defined.

Lemma generate_ensemble_members_witness :
  length (generate_ensemble (x234 false) false) = 6 /\
  forall i y, In (i, Ok y) (generate_ensemble (x234 false) false) ->
    shape y = [4] /\ ao_ensemble_axes_metadata y = [].
Proof.
  destruct (generate_ensemble_members (x234 false) false) as (L & _ & H).
  split; [exact L|]. intros i y Hi.
  destruct (H eq_refl (le_n 1) i y Hi) as (S & M & _). split; [exact S|exact M].
Defined.

Lemma set_ensemble_axes_metadata_in_place_witness :
  snd (set_ensemble_axes_metadata (fun _ => [UnknownAxis]) (x234 false)
         (OrdinalAxis "c" [JStr "c0"]) 0) =
    Raise (RuntimeError "number of values for ordinal axis does not match size of dimension") /\
  nth_error (ao_ensemble_axes_metadata
               (fst (set_ensemble_axes_metadata (fun _ => [UnknownAxis]) (x234 false)
                       (OrdinalAxis "c" [JStr "c0"]) 0))) 0 =
    Some (OrdinalAxis "c" [JStr "c0"]).
Proof.
  destruct (proj2 (set_ensemble_axes_metadata_in_place (fun _ => [UnknownAxis]) (x234 false)
                     (OrdinalAxis "c" [JStr "c0"]) 0%Z) ltac:(simpl; lia))
    as (_ & N & _ & _ & _ & _ & _ & O).
  split; [|exact N].
  apply (O "c"%string [JStr "c0"]); [reflexivity | simpl; lia | simpl; discriminate].
Defined.

Lemma metadata_dict_roundtrip_witness :
  _metadata_from_dict axis_from_dict [profiles]
    (JObj (_metadata_to_dict axis_to_dict "1.0" (fun _ => [UnknownAxis]) (x234 false))) =
  Ok (profiles, [axis_a; axis_b; UnknownAxis], [("data_origin"%string, JStr "abTEM_v1.0")]).
Proof.
  exact (metadata_dict_roundtrip axis_to_dict axis_from_dict "1.0" (fun _ => [UnknownAxis])
           [profiles] (x234 false) axis_from_to_dict eq_refl
           ltac:(simpl; tauto) ltac:(simpl; tauto)).
Defined.

Lemma reduction_keepdims_keeps_axes_witness :
  exists y, _reduction zxp (x234 false) "sum" (Some [1%Z]) true = Ok (RObject y) /\
            length (shape y) = 3 /\ ao_ensemble_axes_metadata y = [axis_a; axis_b].
Proof.
  destruct (reduction_keepdims_keeps_axes zxp (x234 false) "sum" [1%Z] _ eq_refl)
    as (y & Hy & L & M & _).
  exists y. split; [|split; [exact L|exact M]].
  rewrite <- Hy. reflexivity.
Defined.

Lemma stack_inserts_ensemble_axis_witness :
  exists y, stack [x4 [1; 2; 3; 4]%Z; x4 [5; 6; 7; 8]%Z] SANone 0 = Ok y /\
            shape y = [2; 4] /\ base_shape y = [4].
Proof.
  eexists. split; [reflexivity|].
  destruct (stack_inserts_ensemble_axis (x4 [1; 2; 3; 4]%Z) [x4 [5; 6; 7; 8]%Z] SANone 0%Z _
              eq_refl (le_n 1) eq_refl) as (_ & S & _ & _ & B & _).
  split; [exact S|exact B].
Defined.

Lemma composite_metadata_later_wins_witness :
  exists d, composite_metadata [[("a"%string, JBool false)];
                                [("a"%string, JBool true); ("b"%string, JNull)]] = Ok d /\
            dict_get d "a" = Some (JBool true).
Proof.
  destruct (proj2 composite_metadata_later_wins Z
              [[("a"%string, JBool false)]; [("a"%string, JBool true); ("b"%string, JNull)]] []
              [default_out_metadata] (x234 false)
              ltac:(discriminate) ltac:(repeat constructor; simpl; intuition discriminate)
              ltac:(discriminate) ltac:(repeat constructor))
    as ((d & E & G) & _).
  exists d. split; [exact E|]. rewrite G. reflexivity.
Defined.

Lemma partitioned_args_slices_witness :
  exists chunks, partial_member_args [10; 20; 30] (partition_arg_indices 0 [2; 1]) = Ok chunks /\
                 concat chunks = [10; 20; 30] /\ map (@length nat) chunks = [2; 1].
Proof.
  destruct (proj2 (partitioned_args_slices [10; 20; 30] [2; 1] eq_refl)) as (cs & E & C & L).
  exists cs. split; [exact E|]. split; [exact C|exact L].
Defined.

Lemma custom_partition_args_blocks_witness :
  concat (custom_partition_args [(0, 0); (1, 0); (2, 0)]%Q [2; 1]) = [(0, 0); (1, 0); (2, 0)]%Q /\
  map (@length Position) (custom_partition_args [(0, 0); (1, 0); (2, 0)]%Q [2; 1]) = [2; 1].
Proof. exact (custom_partition_args_blocks [(0, 0); (1, 0); (2, 0)]%Q [2; 1] eq_refl). Defined.

Lemma grid_partition_args_contiguous_witness :
  exists bx by_, grid_partition_args (Ok tt) (0, 0)%Q (1 # 2, 1 # 2)%Q ([2; 3], [5]) = Ok (bx, by_) /\
                 map gb_gpts bx = [2; 3] /\ map gb_gpts by_ = [5].
Proof.
  eexists. eexists. split; [reflexivity|].
  destruct (grid_partition_args_contiguous (Ok tt) (0, 0)%Q (1 # 2, 1 # 2)%Q [2; 3] [5] _ _ eq_refl)
    as (X & Y & _ & _).
  split; [exact X|exact Y].
Defined.
